(** * OrganDigitalTwinFHE: a shallow embedding of the contract and its
      request/callback coordinator.

    The contract keeps encrypted organ twins, issues decryption requests to
    the FHE oracle and applies the oracle's callbacks.  Storage is a record,
    Solidity mappings are finite maps read with the zero value as default,
    and every external function is a computation in a storage-passing monad
    whose failure outcome records the revert reason together with the
    storage as it was at the instant of the revert. *)

From Stdlib Require Import ZArith List Bool Lia.
From Stdlib.Strings Require Import Byte String.
From stdpp Require Import base gmap strings list list_numbers sorting fin_maps.

Open Scope string_scope.
Open Scope list_scope.
Open Scope Z_scope.

(** ** Value types *)

(** [uint256] values are integers in [0, 2^256); [euint32] is a [bytes32]
    ciphertext handle, the zero handle being the uninitialised one. *)
Abbreviation uint256 := Z (only parsing).
Abbreviation bytes32 := Z (only parsing).
Abbreviation euint32 := Z (only parsing).
Abbreviation bytes := (list byte) (only parsing).

Definition MAX_UINT256 : Z := 2 ^ 256 - 1.

Record EncryptedOrganModel := mkOrganModel {
  twinId : uint256;
  encryptedOrganType : euint32;
  encryptedPhysioData : euint32;
  encryptedGeneticMarkers : euint32;
  creationTime : uint256
}.

Record EncryptedSimulationParams := mkSimulationParams {
  encryptedDrugCompound : euint32;
  encryptedDosage : euint32;
  encryptedProcedureType : euint32
}.

Record DecryptedSimulationResult := mkSimulationResult {
  predictedEffect : string;
  riskAssessment : string;
  recommendedAdjustment : string;
  isRevealed : bool
}.

(** Zero values, as read from a mapping slot that was never written. *)
Definition zeroOrganModel : EncryptedOrganModel := mkOrganModel 0 0 0 0 0.
Definition zeroSimulationParams : EncryptedSimulationParams := mkSimulationParams 0 0 0.
Definition zeroSimulationResult : DecryptedSimulationResult := mkSimulationResult "" "" "" false.

Inductive Event :=
| TwinCreated (id timestamp : uint256)
| SimulationRequested (id : uint256)
| SimulationCompleted (id : uint256) (riskLevel : string).

(** The two callback selectors handed to [FHE.requestDecryption]. *)
Inductive Selector :=
| processSimulationResult_selector
| decryptOrganTypeCount_selector.

(** One entry of the FHE library's log of issued decryption requests. *)
Record DecryptionRequest := mkRequest {
  reqId : uint256;
  reqHandles : list bytes32;
  reqCallback : Selector
}.

(** ** Storage *)

Record Storage := mkStorage {
  twinCount : uint256;
  encryptedOrganTwins : gmap Z EncryptedOrganModel;
  encryptedSimulations : gmap Z EncryptedSimulationParams;
  decryptedResults : gmap Z DecryptedSimulationResult;
  encryptedOrganTypeCount : gmap string Z;
  organTypeList : list string;
  requestToTwinId : gmap Z Z;
  decryptionRequests : list DecryptionRequest;
  events : list Event
}.

(** The storage of a freshly deployed contract. *)
Definition initialStorage : Storage :=
  mkStorage 0 ∅ ∅ ∅ ∅ [] ∅ [] [].

(** Reading a mapping: the stored value, or the zero value. *)
Definition mget {K : Type} `{Countable K} {V : Type} (zero : V) (m : gmap K V) (k : K) : V :=
  default zero (m !! k).

Definition twinOf (s : Storage) (id : Z) : EncryptedOrganModel :=
  mget zeroOrganModel (encryptedOrganTwins s) id.
Definition paramsOf (s : Storage) (id : Z) : EncryptedSimulationParams :=
  mget zeroSimulationParams (encryptedSimulations s) id.
Definition resultOf (s : Storage) (id : Z) : DecryptedSimulationResult :=
  mget zeroSimulationResult (decryptedResults s) id.
Definition counterOf (s : Storage) (organType : string) : Z :=
  mget 0 (encryptedOrganTypeCount s) organType.
Definition targetOf (s : Storage) (requestId : Z) : Z :=
  mget 0 (requestToTwinId s) requestId.

(** Field updates. *)
Definition set_twinCount (v : Z) (s : Storage) : Storage :=
  mkStorage v (encryptedOrganTwins s) (encryptedSimulations s) (decryptedResults s)
    (encryptedOrganTypeCount s) (organTypeList s) (requestToTwinId s)
    (decryptionRequests s) (events s).
Definition set_encryptedOrganTwins (v : gmap Z EncryptedOrganModel) (s : Storage) : Storage :=
  mkStorage (twinCount s) v (encryptedSimulations s) (decryptedResults s)
    (encryptedOrganTypeCount s) (organTypeList s) (requestToTwinId s)
    (decryptionRequests s) (events s).
Definition set_encryptedSimulations (v : gmap Z EncryptedSimulationParams) (s : Storage) : Storage :=
  mkStorage (twinCount s) (encryptedOrganTwins s) v (decryptedResults s)
    (encryptedOrganTypeCount s) (organTypeList s) (requestToTwinId s)
    (decryptionRequests s) (events s).
Definition set_decryptedResults (v : gmap Z DecryptedSimulationResult) (s : Storage) : Storage :=
  mkStorage (twinCount s) (encryptedOrganTwins s) (encryptedSimulations s) v
    (encryptedOrganTypeCount s) (organTypeList s) (requestToTwinId s)
    (decryptionRequests s) (events s).
Definition set_encryptedOrganTypeCount (v : gmap string Z) (s : Storage) : Storage :=
  mkStorage (twinCount s) (encryptedOrganTwins s) (encryptedSimulations s) (decryptedResults s)
    v (organTypeList s) (requestToTwinId s) (decryptionRequests s) (events s).
Definition set_organTypeList (v : list string) (s : Storage) : Storage :=
  mkStorage (twinCount s) (encryptedOrganTwins s) (encryptedSimulations s) (decryptedResults s)
    (encryptedOrganTypeCount s) v (requestToTwinId s) (decryptionRequests s) (events s).
Definition set_requestToTwinId (v : gmap Z Z) (s : Storage) : Storage :=
  mkStorage (twinCount s) (encryptedOrganTwins s) (encryptedSimulations s) (decryptedResults s)
    (encryptedOrganTypeCount s) (organTypeList s) v (decryptionRequests s) (events s).
Definition set_decryptionRequests (v : list DecryptionRequest) (s : Storage) : Storage :=
  mkStorage (twinCount s) (encryptedOrganTwins s) (encryptedSimulations s) (decryptedResults s)
    (encryptedOrganTypeCount s) (organTypeList s) (requestToTwinId s) v (events s).
Definition set_events (v : list Event) (s : Storage) : Storage :=
  mkStorage (twinCount s) (encryptedOrganTwins s) (encryptedSimulations s) (decryptedResults s)
    (encryptedOrganTypeCount s) (organTypeList s) (requestToTwinId s)
    (decryptionRequests s) v.

(** ** Reverts and the storage-passing monad *)

(** The errors with which the FHE library refuses a decryption request:
    the contract has no permission on a handle of the payload, or the
    request identifier already has saved handles. *)
Inductive LibraryError :=
| SenderNotAllowed
| HandlesAlreadySaved.

Inductive RevertReason :=
| ErrorString (msg : string)   (* require(cond, msg) and revert(msg) *)
| Panic (code : Z)             (* 0x11 arithmetic overflow, 0x32 index out of bounds *)
| InvalidSignatures            (* FHE.checkSignatures rejected the proof *)
| AbiDecodeFailure             (* abi.decode on malformed bytes *)
| LibraryRevert (e : LibraryError). (* FHE.requestDecryption refused the request *)

(** The names the specification gives to the contract's reverts. *)
Definition InvalidTwin : RevertReason := ErrorString "Invalid twin ID".
Definition UnknownRequest : RevertReason := ErrorString "Invalid request".
Definition AlreadyRevealed : RevertReason := ErrorString "Already processed".
Definition UnknownCategory : RevertReason := ErrorString "Organ type not found".
Definition InvalidProof : RevertReason := InvalidSignatures.

(** [Done a s]: the call returned [a] and leaves storage [s].
    [Reverted e s]: the call reverted with [e]; [s] is the storage at the
    instant of the revert, before the transaction is rolled back. *)
Inductive Outcome (A : Type) :=
| Done (a : A) (s : Storage)
| Reverted (e : RevertReason) (s : Storage).
Arguments Done {A} a s.
Arguments Reverted {A} e s.

Definition M (A : Type) : Type := Storage -> Outcome A.

#[global] Instance M_ret : MRet M := fun A a s => Done a s.
#[global] Instance M_bind : MBind M := fun A B f m s =>
  match m s with
  | Done a s' => f a s'
  | Reverted e s' => Reverted e s'
  end.

Definition revert {A : Type} (e : RevertReason) : M A := fun s => Reverted e s.
Definition require (cond : bool) (msg : string) : M unit :=
  fun s => if cond then Done tt s else Reverted (ErrorString msg) s.
Definition gets {A : Type} (f : Storage -> A) : M A := fun s => Done (f s) s.
Definition modify (f : Storage -> Storage) : M unit := fun s => Done tt (f s).
Definition emit (e : Event) : M unit := modify (fun s => set_events (events s ++ [e]) s).

(** ** The FHE library and the other primitives the contract imports *)

Class Platform := {
  (** [FHE.asEuint32(v)]: the handle of a trivial encryption of [v]. *)
  FHE_asEuint32 : Z -> euint32;
  (** [FHE.add(a, b)]: the handle of the homomorphic sum, of operands
      the contract is permitted to compute on. *)
  FHE_add : euint32 -> euint32 -> euint32;
  (** [FHE.isInitialized(h)]. *)
  FHE_isInitialized : euint32 -> bool;
  (** The identifier [FHE.requestDecryption] returns, given the requests
      issued so far. *)
  FHE_nextRequestId : list DecryptionRequest -> uint256;
  (** The error, if any, with which [FHE.requestDecryption] refuses a
      payload, given the requests issued so far. *)
  FHE_requestCheck : list DecryptionRequest -> list bytes32 -> option LibraryError;
  (** Whether [FHE.checkSignatures(requestId, cleartexts, proof)] accepts,
      given the requests issued so far. *)
  FHE_signaturesValid : list DecryptionRequest -> uint256 -> bytes -> bytes -> bool;
  (** [abi.decode(data, (string[]))] and [abi.decode(data, (uint32))];
      [None] when the bytes are malformed. *)
  abi_decode_strings : bytes -> option (list string);
  abi_decode_uint32 : bytes -> option Z;
  (** [keccak256(abi.encodePacked(str))], as a [bytes32]. *)
  keccak256_packed : string -> bytes32
}.

Definition FHE_toBytes32 (h : euint32) : bytes32 := h.
Definition bytes32ToUint (b : bytes32) : uint256 := b.

(** ** The contract *)

Section Contract.

Context {P : Platform}.

(** [FHE.requestDecryption(cts, selector)]: reverts when the library
    refuses the payload; otherwise logs the request and returns the
    identifier the library assigns to it. *)
Definition FHE_requestDecryption (cts : list bytes32) (selector : Selector) : M uint256 :=
  fun s =>
    match FHE_requestCheck (decryptionRequests s) cts with
    | Some e => Reverted (LibraryRevert e) s
    | None =>
        let id := FHE_nextRequestId (decryptionRequests s) in
        Done id (set_decryptionRequests
                   (decryptionRequests s ++ [mkRequest id cts selector]) s)
    end.

(** [FHE.checkSignatures(requestId, cleartexts, proof)]: reverts unless
    the proof is valid. *)
Definition FHE_checkSignatures (requestId : uint256) (cleartexts proof : bytes) : M unit :=
  fun s =>
    if FHE_signaturesValid (decryptionRequests s) requestId cleartexts proof
    then Done tt s
    else Reverted InvalidSignatures s.

(** [abi.decode(cleartexts, (string[]))]. *)
Definition decodeStrings (cleartexts : bytes) : M (list string) :=
  fun s =>
    match abi_decode_strings cleartexts with
    | Some data => Done data s
    | None => Reverted AbiDecodeFailure s
    end.

(** [abi.decode(cleartexts, (uint32))]. *)
Definition decodeUint32 (cleartexts : bytes) : M Z :=
  fun s =>
    match abi_decode_uint32 cleartexts with
    | Some v => Done v s
    | None => Reverted AbiDecodeFailure s
    end.

(** [data[i]] on a memory array: panics with 0x32 out of bounds. *)
Definition index (data : list string) (i : nat) : M string :=
  fun s =>
    match data !! i with
    | Some x => Done x s
    | None => Reverted (Panic 50) s
    end.

(** [twinCount += 1] under checked arithmetic: panics with 0x11 on
    overflow. *)
Definition incrementTwinCount : M unit :=
  fun s =>
    if twinCount s + 1 <=? MAX_UINT256
    then Done tt (set_twinCount (twinCount s + 1) s)
    else Reverted (Panic 17) s.

Definition createEncryptedTwin
    (encryptedOrganType encryptedPhysioData encryptedGeneticMarkers : euint32)
    (timestamp : uint256) : M unit :=
  incrementTwinCount;;
  newId ← gets twinCount;
  modify (fun s => set_encryptedOrganTwins
    (<[newId := mkOrganModel newId encryptedOrganType encryptedPhysioData
                  encryptedGeneticMarkers timestamp]> (encryptedOrganTwins s)) s);;
  modify (fun s => set_decryptedResults
    (<[newId := mkSimulationResult "" "" "" false]> (decryptedResults s)) s);;
  emit (TwinCreated newId timestamp).

Definition prepareSimulationData (twinId : uint256) (isSurgery : bool) : M (list bytes32) :=
  model ← gets (fun s => twinOf s twinId);
  params ← gets (fun s => paramsOf s twinId);
  mret [ FHE_toBytes32 (encryptedOrganType model);
         FHE_toBytes32 (encryptedPhysioData model);
         FHE_toBytes32 (encryptedGeneticMarkers model);
         if isSurgery
         then FHE_toBytes32 (encryptedProcedureType params)
         else FHE_toBytes32 (encryptedDrugCompound params) ].

Definition requestDrugSimulation
    (twinId : uint256) (encryptedDrugCompound encryptedDosage : euint32) : M unit :=
  count ← gets twinCount;
  require (twinId <=? count) "Invalid twin ID";;
  modify (fun s => set_encryptedSimulations
    (<[twinId := mkSimulationParams encryptedDrugCompound encryptedDosage
                   (FHE_asEuint32 0)]> (encryptedSimulations s)) s);;
  ciphertexts ← prepareSimulationData twinId false;
  reqId ← FHE_requestDecryption ciphertexts processSimulationResult_selector;
  modify (fun s => set_requestToTwinId (<[reqId := twinId]> (requestToTwinId s)) s);;
  emit (SimulationRequested twinId).

Definition requestSurgerySimulation
    (twinId : uint256) (encryptedProcedureType : euint32) : M unit :=
  count ← gets twinCount;
  require (twinId <=? count) "Invalid twin ID";;
  modify (fun s => set_encryptedSimulations
    (<[twinId := mkSimulationParams (FHE_asEuint32 0) (FHE_asEuint32 0)
                   encryptedProcedureType]> (encryptedSimulations s)) s);;
  ciphertexts ← prepareSimulationData twinId true;
  reqId ← FHE_requestDecryption ciphertexts processSimulationResult_selector;
  modify (fun s => set_requestToTwinId (<[reqId := twinId]> (requestToTwinId s)) s);;
  emit (SimulationRequested twinId).

Definition generatePrediction (data : list string) : string :=
  "Improved cardiac output by 15%".

Definition assessRisks (data : list string) : string :=
  "Low risk of arrhythmia".

Definition suggestAdjustments (data : list string) : string :=
  "Reduce dosage by 20% for renal patients".

Definition updateOrganTypeStatistics (organType : string) : M unit :=
  current ← gets (fun s => counterOf s organType);
  (if negb (FHE_isInitialized current)
   then
     modify (fun s => set_encryptedOrganTypeCount
       (<[organType := FHE_asEuint32 0]> (encryptedOrganTypeCount s)) s);;
     modify (fun s => set_organTypeList (organTypeList s ++ [organType]) s)
   else mret tt);;
  modify (fun s => set_encryptedOrganTypeCount
    (<[organType := FHE_add (counterOf s organType) (FHE_asEuint32 1)]>
       (encryptedOrganTypeCount s)) s).

(** A write through the storage pointer [result = decryptedResults[twinId]]. *)
Definition updateResult (twinId : uint256)
    (f : DecryptedSimulationResult -> DecryptedSimulationResult) : M unit :=
  modify (fun s => set_decryptedResults
    (<[twinId := f (resultOf s twinId)]> (decryptedResults s)) s).

Definition processSimulationResult
    (requestId : uint256) (cleartexts proof : bytes) : M unit :=
  twinId ← gets (fun s => targetOf s requestId);
  require (negb (twinId =? 0)) "Invalid request";;
  result ← gets (fun s => resultOf s twinId);
  require (negb (isRevealed result)) "Already processed";;
  FHE_checkSignatures requestId cleartexts proof;;
  simulationData ← decodeStrings cleartexts;
  updateResult twinId (fun r => mkSimulationResult (generatePrediction simulationData)
    (riskAssessment r) (recommendedAdjustment r) (isRevealed r));;
  updateResult twinId (fun r => mkSimulationResult (predictedEffect r)
    (assessRisks simulationData) (recommendedAdjustment r) (isRevealed r));;
  updateResult twinId (fun r => mkSimulationResult (predictedEffect r)
    (riskAssessment r) (suggestAdjustments simulationData) (isRevealed r));;
  updateResult twinId (fun r => mkSimulationResult (predictedEffect r)
    (riskAssessment r) (recommendedAdjustment r) true);;
  organType ← index simulationData 0;
  updateOrganTypeStatistics organType;;
  risk ← gets (fun s => riskAssessment (resultOf s twinId));
  emit (SimulationCompleted twinId risk).

Definition getSimulationResult (s : Storage) (twinId : uint256)
    : string * string * string * bool :=
  let r := resultOf s twinId in
  (predictedEffect r, riskAssessment r, recommendedAdjustment r, isRevealed r).

Definition requestOrganTypeCountDecryption (organType : string) : M unit :=
  count ← gets (fun s => counterOf s organType);
  require (FHE_isInitialized count) "Organ type not found";;
  reqId ← FHE_requestDecryption [FHE_toBytes32 count] decryptOrganTypeCount_selector;
  modify (fun s => set_requestToTwinId
    (<[reqId := bytes32ToUint (keccak256_packed organType)]> (requestToTwinId s)) s).

(** The loop of [getOrganTypeFromHash]: the first listed organ type whose
    hash is [hash]. *)
Fixpoint findOrganType (l : list string) (hash : uint256) : option string :=
  match l with
  | [] => None
  | organType :: rest =>
      if bytes32ToUint (keccak256_packed organType) =? hash
      then Some organType
      else findOrganType rest hash
  end.

Definition getOrganTypeFromHash (hash : uint256) : M string :=
  fun s =>
    match findOrganType (organTypeList s) hash with
    | Some organType => Done organType s
    | None => Reverted (ErrorString "Organ type not found") s
    end.

Definition decryptOrganTypeCount
    (requestId : uint256) (cleartexts proof : bytes) : M unit :=
  organTypeHash ← gets (fun s => targetOf s requestId);
  organType ← getOrganTypeFromHash organTypeHash;
  FHE_checkSignatures requestId cleartexts proof;;
  count ← decodeUint32 cleartexts;
  mret tt.

(** ** Transactions *)

Inductive Call :=
| CreateEncryptedTwin (organType physioData geneticMarkers : euint32) (timestamp : uint256)
| RequestDrugSimulation (id : uint256) (drugCompound dosage : euint32)
| RequestSurgerySimulation (id : uint256) (procedureType : euint32)
| ProcessSimulationResult (requestId : uint256) (cleartexts proof : bytes)
| RequestOrganTypeCountDecryption (organType : string)
| DecryptOrganTypeCount (requestId : uint256) (cleartexts proof : bytes).

Definition dispatch (c : Call) : M unit :=
  match c with
  | CreateEncryptedTwin o p g t => createEncryptedTwin o p g t
  | RequestDrugSimulation id d a => requestDrugSimulation id d a
  | RequestSurgerySimulation id p => requestSurgerySimulation id p
  | ProcessSimulationResult r c p => processSimulationResult r c p
  | RequestOrganTypeCountDecryption o => requestOrganTypeCountDecryption o
  | DecryptOrganTypeCount r c p => decryptOrganTypeCount r c p
  end.

(** A transaction either commits the storage the call leaves or, on a
    revert, rolls back to the storage it started from. *)
Definition transact (c : Call) (s : Storage) : Storage :=
  match dispatch c s with
  | Done _ s' => s'
  | Reverted _ _ => s
  end.

Definition succeeds (c : Call) (s : Storage) : bool :=
  match dispatch c s with
  | Done _ _ => true
  | Reverted _ _ => false
  end.

Fixpoint run (cs : list Call) (s : Storage) : Storage :=
  match cs with
  | [] => s
  | c :: rest => run rest (transact c s)
  end.

End Contract.

(** ** Histories of calls *)

Section Histories.

Context {P : Platform}.

(** [allocates c s t]: in storage [s], the call [c] is a
    [createEncryptedTwin] that assigns the id [t]. *)
Definition allocates (c : Call) (s : Storage) (t : uint256) : bool :=
  match c with
  | CreateEncryptedTwin _ _ _ _ => twinCount s + 1 =? t
  | _ => false
  end.

(** No call of the history [cs], run from [s], assigns the id [t]. *)
Fixpoint neverAllocates (t : uint256) (cs : list Call) (s : Storage) : bool :=
  match cs with
  | [] => true
  | c :: rest => negb (allocates c s t) && neverAllocates t rest (transact c s)
  end.

(** [reveals c s t]: in storage [s], the call [c] is a successful
    [processSimulationResult] callback whose request resolves to [t]. *)
Definition reveals (c : Call) (s : Storage) (t : uint256) : bool :=
  match c with
  | ProcessSimulationResult requestId _ _ => succeeds c s && (targetOf s requestId =? t)
  | _ => false
  end.

(** How many calls of the history [cs], run from [s], reveal [t]. *)
Fixpoint revealCount (t : uint256) (cs : list Call) (s : Storage) : nat :=
  match cs with
  | [] => O
  | c :: rest =>
      ((if reveals c s t then 1 else 0) + revealCount t rest (transact c s))%nat
  end.

(** [registers c s requestId]: in storage [s], the call [c] is a request
    to which the oracle would give the identifier [requestId]. *)
Definition registers (c : Call) (s : Storage) (requestId : uint256) : bool :=
  match c with
  | RequestDrugSimulation _ _ _
  | RequestSurgerySimulation _ _
  | RequestOrganTypeCountDecryption _ =>
      FHE_nextRequestId (decryptionRequests s) =? requestId
  | _ => false
  end.

(** No call of the history [cs], run from [s], is given [requestId]. *)
Fixpoint neverRegisters (requestId : uint256) (cs : list Call) (s : Storage) : bool :=
  match cs with
  | [] => true
  | c :: rest => negb (registers c s requestId) && neverRegisters requestId rest (transact c s)
  end.

(** The validation steps of [processSimulationResult], in the order the
    function runs them, with the revert each one raises. *)
Inductive ValidationFailure (s : Storage) (requestId : uint256) (cleartexts proof : bytes)
  : RevertReason -> Prop :=
| unknown_request :
    targetOf s requestId = 0 ->
    ValidationFailure s requestId cleartexts proof UnknownRequest
| already_revealed :
    targetOf s requestId <> 0 ->
    isRevealed (resultOf s (targetOf s requestId)) = true ->
    ValidationFailure s requestId cleartexts proof AlreadyRevealed
| invalid_proof :
    targetOf s requestId <> 0 ->
    isRevealed (resultOf s (targetOf s requestId)) = false ->
    FHE_signaturesValid (decryptionRequests s) requestId cleartexts proof = false ->
    ValidationFailure s requestId cleartexts proof InvalidProof.

(** The ids carried by the [TwinCreated] events of a log, in order. *)
Fixpoint createdIds (log : list Event) : list uint256 :=
  match log with
  | [] => []
  | TwinCreated id _ :: rest => id :: createdIds rest
  | _ :: rest => createdIds rest
  end.

(** [updateOrganTypeStatistics organType] applied [n] times in a row;
    the function never reverts, so the storage it leaves is carried on. *)
Definition blindIncrement (organType : string) (s : Storage) : Storage :=
  match updateOrganTypeStatistics organType s with
  | Done _ s' => s'
  | Reverted _ s' => s'
  end.

Fixpoint blindIncrements (n : nat) (organType : string) (s : Storage) : Storage :=
  match n with
  | O => s
  | S k => blindIncrement organType (blindIncrements k organType s)
  end.

(** [completion c s]: when the call [c] is a [processSimulationResult]
    callback that succeeds in [s], the category it counts, that is the
    first of its decoded cleartexts. *)
Definition completion (c : Call) (s : Storage) : option string :=
  match c with
  | ProcessSimulationResult _ cleartexts _ =>
      if succeeds c s
      then match abi_decode_strings cleartexts with
           | Some data => data !! 0%nat
           | None => None
           end
      else None
  | _ => None
  end.

(** How many calls of the history [cs], run from [s], are successful
    callbacks counting the category [organType]. *)
Fixpoint completedCount (organType : string) (cs : list Call) (s : Storage) : nat :=
  match cs with
  | [] => O
  | c :: rest =>
      ((if bool_decide (completion c s = Some organType) then 1 else 0)
       + completedCount organType rest (transact c s))%nat
  end.

(** The shape of a logged decryption request: four handles for a
    simulation, one for a category count. *)
Definition wellShaped (r : DecryptionRequest) : Prop :=
  match reqCallback r with
  | processSimulationResult_selector => length (reqHandles r) = 4%nat
  | decryptOrganTypeCount_selector => length (reqHandles r) = 1%nat
  end.

End Histories.

(** ** A transparent reference platform

    Handles carry their plaintext: the handle of the value [v] is [v + 1],
    so that the zero handle stays the uninitialised one; request ids are
    issued by a counter; a decryption request is refused when its payload
    holds the zero handle or its identifier was already used; a proof is
    valid when it is non-empty and the request was issued; the cleartext
    bytes of a simulation are read as one string. *)

Module Clear.

Definition plain (h : euint32) : Z := Z.max 0 (h - 1).
Definition asEuint32 (v : Z) : euint32 := Z.max 0 v + 1.
Definition add (a b : euint32) : euint32 := plain a + plain b + 1.
Definition isInitialized (h : euint32) : bool := 0 <? h.

Definition nextRequestId (log : list DecryptionRequest) : uint256 :=
  Z.of_nat (length log).

(** The library's checks on a request that would be numbered [id]. *)
Definition requestCheckFor (id : uint256) (log : list DecryptionRequest)
    (cts : list bytes32) : option LibraryError :=
  if existsb (fun h => h =? 0) cts then Some SenderNotAllowed
  else if existsb (fun r => reqId r =? id) log then Some HandlesAlreadySaved
  else None.

Definition requestCheck (log : list DecryptionRequest) (cts : list bytes32)
    : option LibraryError :=
  requestCheckFor (nextRequestId log) log cts.

Definition signaturesValid (log : list DecryptionRequest) (requestId : uint256)
    (cleartexts proof : bytes) : bool :=
  existsb (fun r => reqId r =? requestId) log &&
  match proof with [] => false | _ :: _ => true end.

Definition decode_strings (data : bytes) : option (list string) :=
  match data with
  | [] => Some []
  | _ :: _ => Some [string_of_list_byte data]
  end.

Definition decode_uint32 (data : bytes) : option Z :=
  let v := fold_left (fun acc b => acc * 256 + Z.of_N (Byte.to_N b)) data 0 in
  if v <? 2 ^ 32 then Some v else None.

Definition hash (str : string) : bytes32 :=
  fold_left (fun acc b => acc * 257 + Z.of_N (Byte.to_N b) + 1) (list_byte_of_string str) 7.

#[global] Instance platform : Platform := {|
  FHE_asEuint32 := asEuint32;
  FHE_add := add;
  FHE_isInitialized := isInitialized;
  FHE_nextRequestId := nextRequestId;
  FHE_requestCheck := requestCheck;
  FHE_signaturesValid := signaturesValid;
  abi_decode_strings := decode_strings;
  abi_decode_uint32 := decode_uint32;
  keccak256_packed := hash
|}.

(** A small scenario: one twin, one drug simulation, its callback. *)
Definition heart : bytes := list_byte_of_string "heart".
Definition okProof : bytes := [x01].

Definition created : Storage :=
  run [CreateEncryptedTwin 11 12 13 1000] initialStorage.
Definition requested : Storage :=
  run [RequestDrugSimulation 1 21 22] created.
Definition revealed : Storage :=
  run [ProcessSimulationResult 0 heart okProof] requested.
Definition counted : Storage :=
  run [RequestOrganTypeCountDecryption "heart"] revealed.
Definition later : list Call :=
  [CreateEncryptedTwin 31 32 33 2000; RequestSurgerySimulation 2 41].
Definition history : list Call :=
  [CreateEncryptedTwin 11 12 13 1000; RequestDrugSimulation 1 21 22;
   ProcessSimulationResult 0 heart okProof; RequestOrganTypeCountDecryption "heart"].

(** Two twins whose simulations both complete with the category "liver". *)
Definition liver : bytes := list_byte_of_string "liver".
Definition twoLivers : list Call :=
  [CreateEncryptedTwin 11 12 13 1000; CreateEncryptedTwin 14 15 16 1001;
   RequestDrugSimulation 1 21 22; RequestSurgerySimulation 2 41;
   ProcessSimulationResult 0 liver okProof; ProcessSimulationResult 1 liver okProof].

(** A surgery requested while the drug simulation of twin 1 is pending. *)
Definition requestedTwice : Storage :=
  run [RequestSurgerySimulation 1 41] requested.

(** A twin created with uninitialised handles. *)
Definition bare : Storage :=
  run [CreateEncryptedTwin 0 0 0 1000] initialStorage.

(** The request id of the count request of [counted], presented to the
    simulation callback with a category not counted before. *)
Definition confused : Storage :=
  run [ProcessSimulationResult 1 liver okProof] counted.

(** A storage whose allocation counter is at the top of [uint256]. *)
Definition full : Storage := set_twinCount MAX_UINT256 initialStorage.

End Clear.

(** ** A platform whose request counter is held back

    As [Clear], except that the library's request counter stays at 7, so
    that a second request meets an identifier that already has saved
    handles. *)

Module Rewound.

Definition platform : Platform := {|
  FHE_asEuint32 := Clear.asEuint32;
  FHE_add := Clear.add;
  FHE_isInitialized := Clear.isInitialized;
  FHE_nextRequestId := fun _ => 7;
  FHE_requestCheck := Clear.requestCheckFor 7;
  FHE_signaturesValid := Clear.signaturesValid;
  abi_decode_strings := Clear.decode_strings;
  abi_decode_uint32 := Clear.decode_uint32;
  keccak256_packed := Clear.hash
|}.

(** Two twins, and a pending drug simulation of the first. *)
Definition calls : list Call :=
  [CreateEncryptedTwin 11 12 13 1000; CreateEncryptedTwin 14 15 16 1001;
   RequestDrugSimulation 1 21 22].
Abbreviation pending := (run (P := platform) calls initialStorage).

End Rewound.

(** ** Closed forms of the storage a callback leaves *)

Section ClosedForms.

Context {P : Platform}.

(** The four handles [prepareSimulationData] returns for a twin once the
    new simulation handle [fourth] is stored. *)
Definition simulationPayload (s : Storage) (id : uint256) (fourth : euint32)
    : list bytes32 :=
  [encryptedOrganType (twinOf s id); encryptedPhysioData (twinOf s id);
   encryptedGeneticMarkers (twinOf s id); fourth].

(** The storage once the four writes through [result] are done. *)
Definition resultWritten (id : uint256) (data : list string) (s : Storage) : Storage :=
  set_decryptedResults
    (<[id := mkSimulationResult (generatePrediction data) (assessRisks data)
               (suggestAdjustments data) true]> (decryptedResults s)) s.

(** The storage a successful [processSimulationResult] commits. *)
Definition completedStorage (id : uint256) (data : list string) (organType : string)
    (s : Storage) : Storage :=
  let s' := blindIncrement organType (resultWritten id data s) in
  set_events (events s' ++ [SimulationCompleted id (riskAssessment (resultOf s' id))]) s'.

(** The whole of [processSimulationResult], as a decision tree. *)
Definition processOutcome (requestId : uint256) (cleartexts proof : bytes)
    (s : Storage) : Outcome unit :=
  let id := targetOf s requestId in
  if id =? 0 then Reverted UnknownRequest s
  else if isRevealed (resultOf s id) then Reverted AlreadyRevealed s
  else if negb (FHE_signaturesValid (decryptionRequests s) requestId cleartexts proof)
  then Reverted InvalidProof s
  else match abi_decode_strings cleartexts with
       | None => Reverted AbiDecodeFailure s
       | Some data =>
           match data !! 0%nat with
           | None => Reverted (Panic 50) (resultWritten id data s)
           | Some organType => Done tt (completedStorage id data organType s)
           end
       end.

End ClosedForms.

(** * Properties *)

Section Properties.

Context {P : Platform}.

Ltac unfold_monad :=
  unfold mbind, M_bind, mret, M_ret, gets, modify, require, revert, emit in *.

Lemma mget_insert_eq {K : Type} `{Countable K} {V : Type} (zero v : V) (m : gmap K V) (k : K) :
  mget zero (<[k := v]> m) k = v.
Proof. unfold mget. by rewrite lookup_insert_eq. Qed.

Lemma mget_insert_ne {K : Type} `{Countable K} {V : Type} (zero v : V) (m : gmap K V) (k k' : K) :
  k ≠ k' -> mget zero (<[k := v]> m) k' = mget zero m k'.
Proof. intros Hne. unfold mget. by rewrite lookup_insert_ne. Qed.

Lemma mget_empty {K : Type} `{Countable K} {V : Type} (zero : V) (k : K) :
  mget zero (∅ : gmap K V) k = zero.
Proof. unfold mget. by rewrite lookup_empty. Qed.

(** [updateOrganTypeStatistics] never reverts. *)
Lemma updateOrganTypeStatistics_done (organType : string) (s : Storage) :
  updateOrganTypeStatistics organType s = Done tt (blindIncrement organType s).
Proof.
  unfold blindIncrement, updateOrganTypeStatistics. unfold_monad.
  destruct (negb (FHE_isInitialized (counterOf s organType))); reflexivity.
Qed.

(** The counter part of one increment. *)
Lemma blindIncrement_counters (organType : string) (s : Storage) :
  encryptedOrganTypeCount (blindIncrement organType s) =
  <[organType :=
      FHE_add (if FHE_isInitialized (counterOf s organType)
               then counterOf s organType else FHE_asEuint32 0)
              (FHE_asEuint32 1)]> (encryptedOrganTypeCount s).
Proof.
  unfold blindIncrement, updateOrganTypeStatistics. unfold_monad.
  destruct (FHE_isInitialized (counterOf s organType)); cbn.
  - reflexivity.
  - unfold counterOf at 1. cbn. rewrite mget_insert_eq.
    by rewrite insert_insert_eq.
Qed.

(** An increment touches the counters and the category list only. *)
Lemma blindIncrement_frame (organType : string) (s : Storage) :
  twinCount (blindIncrement organType s) = twinCount s /\
  encryptedOrganTwins (blindIncrement organType s) = encryptedOrganTwins s /\
  encryptedSimulations (blindIncrement organType s) = encryptedSimulations s /\
  decryptedResults (blindIncrement organType s) = decryptedResults s /\
  requestToTwinId (blindIncrement organType s) = requestToTwinId s /\
  decryptionRequests (blindIncrement organType s) = decryptionRequests s /\
  events (blindIncrement organType s) = events s.
Proof.
  unfold blindIncrement, updateOrganTypeStatistics. unfold_monad.
  destruct (negb (FHE_isInitialized (counterOf s organType))); cbn; auto 10.
Qed.

(** [processSimulationResult] computes exactly its decision tree. *)
Lemma processSimulationResult_outcome (requestId : Z) (cleartexts proof : list byte)
    (s : Storage) :
  processSimulationResult requestId cleartexts proof s =
  processOutcome requestId cleartexts proof s.
Proof.
  unfold processSimulationResult, processOutcome. unfold_monad.
  destruct (targetOf s requestId =? 0) eqn:Hid; cbn; [reflexivity |].
  destruct (isRevealed (resultOf s (targetOf s requestId))) eqn:Hrev; cbn; [reflexivity |].
  unfold FHE_checkSignatures.
  destruct (FHE_signaturesValid _ _ _ _); cbn; [| reflexivity].
  unfold decodeStrings.
  destruct (abi_decode_strings cleartexts) as [data |]; [| reflexivity].
  set (id := targetOf s requestId).
  assert (Hw :
    (let s1 := set_decryptedResults (<[id := mkSimulationResult (generatePrediction data)
         (riskAssessment (resultOf s id)) (recommendedAdjustment (resultOf s id))
         (isRevealed (resultOf s id))]> (decryptedResults s)) s in
     let s2 := set_decryptedResults (<[id := mkSimulationResult (predictedEffect (resultOf s1 id))
         (assessRisks data) (recommendedAdjustment (resultOf s1 id))
         (isRevealed (resultOf s1 id))]> (decryptedResults s1)) s1 in
     let s3 := set_decryptedResults (<[id := mkSimulationResult (predictedEffect (resultOf s2 id))
         (riskAssessment (resultOf s2 id)) (suggestAdjustments data)
         (isRevealed (resultOf s2 id))]> (decryptedResults s2)) s2 in
     set_decryptedResults (<[id := mkSimulationResult (predictedEffect (resultOf s3 id))
         (riskAssessment (resultOf s3 id)) (recommendedAdjustment (resultOf s3 id))
         true]> (decryptedResults s3)) s3) = resultWritten id data s).
  { unfold resultWritten, resultOf. cbn.
    rewrite !mget_insert_eq. cbn. by rewrite !insert_insert_eq. }
  unfold updateResult. unfold_monad. cbn in Hw. cbn. rewrite Hw.
  unfold index. destruct (data !! 0%nat) as [organType |]; [| reflexivity].
  rewrite updateOrganTypeStatistics_done. reflexivity.
Qed.

(** *** Failed validation *)

Lemma validation_failure_reverts
    (s : Storage) (requestId : Z) (cleartexts proof : list byte) (e : RevertReason) :
  ValidationFailure s requestId cleartexts proof e ->
  processSimulationResult requestId cleartexts proof s = Reverted e s.
Proof.
  intros Hfail. rewrite processSimulationResult_outcome. unfold processOutcome.
  destruct Hfail as [Hid | Hid Hrev | Hid Hrev Hsig].
  - rewrite Hid. reflexivity.
  - apply Z.eqb_neq in Hid. rewrite Hid, Hrev. reflexivity.
  - apply Z.eqb_neq in Hid. rewrite Hid, Hrev, Hsig. reflexivity.
Qed.

Lemma reverted_call_rolls_back (c : Call) (s s' : Storage) (e : RevertReason) :
  dispatch c s = Reverted e s' -> transact c s = s.
Proof. intros Hout. unfold transact. by rewrite Hout. Qed.

(** C4. A [processSimulationResult] callback that fails a validation step
    (unknown request id, result already revealed, or proof rejected)
    reverts with the matching error; the storage at the instant of the
    revert is the storage the call started from, so nothing was written:
    the transaction leaves every result record, and so every revealed
    flag, and every category counter as they were. *)
Theorem failed_validation_mutates_nothing
    (s : Storage) (requestId : Z) (cleartexts proof : list byte) (e : RevertReason) :
  ValidationFailure s requestId cleartexts proof e ->
  processSimulationResult requestId cleartexts proof s = Reverted e s /\
  transact (ProcessSimulationResult requestId cleartexts proof) s = s /\
  (forall id, resultOf (transact (ProcessSimulationResult requestId cleartexts proof) s) id
              = resultOf s id) /\
  (forall organType,
     counterOf (transact (ProcessSimulationResult requestId cleartexts proof) s) organType
     = counterOf s organType).
Proof.
  intros Hfail. pose proof (validation_failure_reverts _ _ _ _ _ Hfail) as Hout.
  rewrite (reverted_call_rolls_back (ProcessSimulationResult requestId cleartexts proof)
             s s e Hout).
  auto.
Qed.

(** *** What each external function computes *)

Lemma createEncryptedTwin_outcome (o p g : Z) (timestamp : Z) (s : Storage) :
  createEncryptedTwin o p g timestamp s =
  if twinCount s + 1 <=? MAX_UINT256
  then Done tt (mkStorage (twinCount s + 1)
         (<[twinCount s + 1 := mkOrganModel (twinCount s + 1) o p g timestamp]>
            (encryptedOrganTwins s))
         (encryptedSimulations s)
         (<[twinCount s + 1 := mkSimulationResult "" "" "" false]> (decryptedResults s))
         (encryptedOrganTypeCount s) (organTypeList s) (requestToTwinId s)
         (decryptionRequests s) (events s ++ [TwinCreated (twinCount s + 1) timestamp]))
  else Reverted (Panic 17) s.
Proof.
  unfold createEncryptedTwin, incrementTwinCount. unfold_monad.
  destruct (twinCount s + 1 <=? MAX_UINT256); reflexivity.
Qed.

Lemma requestDrugSimulation_outcome (id : Z) (drug dosage : Z) (s : Storage) :
  requestDrugSimulation id drug dosage s =
  if id <=? twinCount s
  then match FHE_requestCheck (decryptionRequests s) (simulationPayload s id drug) with
       | Some e =>
           Reverted (LibraryRevert e)
             (set_encryptedSimulations
                (<[id := mkSimulationParams drug dosage (FHE_asEuint32 0)]>
                   (encryptedSimulations s)) s)
       | None =>
           Done tt (mkStorage (twinCount s) (encryptedOrganTwins s)
             (<[id := mkSimulationParams drug dosage (FHE_asEuint32 0)]>
                (encryptedSimulations s))
             (decryptedResults s) (encryptedOrganTypeCount s) (organTypeList s)
             (<[FHE_nextRequestId (decryptionRequests s) := id]> (requestToTwinId s))
             (decryptionRequests s ++
                [mkRequest (FHE_nextRequestId (decryptionRequests s))
                   (simulationPayload s id drug) processSimulationResult_selector])
             (events s ++ [SimulationRequested id]))
       end
  else Reverted InvalidTwin s.
Proof.
  unfold requestDrugSimulation, prepareSimulationData, FHE_requestDecryption. unfold_monad.
  destruct (id <=? twinCount s); [| reflexivity].
  cbn. unfold paramsOf, twinOf, FHE_toBytes32, simulationPayload. cbn.
  rewrite mget_insert_eq. cbn. unfold twinOf.
  destruct (FHE_requestCheck _ _); reflexivity.
Qed.

Lemma requestSurgerySimulation_outcome (id : Z) (procedure : Z) (s : Storage) :
  requestSurgerySimulation id procedure s =
  if id <=? twinCount s
  then match FHE_requestCheck (decryptionRequests s) (simulationPayload s id procedure) with
       | Some e =>
           Reverted (LibraryRevert e)
             (set_encryptedSimulations
                (<[id := mkSimulationParams (FHE_asEuint32 0) (FHE_asEuint32 0) procedure]>
                   (encryptedSimulations s)) s)
       | None =>
           Done tt (mkStorage (twinCount s) (encryptedOrganTwins s)
             (<[id := mkSimulationParams (FHE_asEuint32 0) (FHE_asEuint32 0) procedure]>
                (encryptedSimulations s))
             (decryptedResults s) (encryptedOrganTypeCount s) (organTypeList s)
             (<[FHE_nextRequestId (decryptionRequests s) := id]> (requestToTwinId s))
             (decryptionRequests s ++
                [mkRequest (FHE_nextRequestId (decryptionRequests s))
                   (simulationPayload s id procedure) processSimulationResult_selector])
             (events s ++ [SimulationRequested id]))
       end
  else Reverted InvalidTwin s.
Proof.
  unfold requestSurgerySimulation, prepareSimulationData, FHE_requestDecryption. unfold_monad.
  destruct (id <=? twinCount s); [| reflexivity].
  cbn. unfold paramsOf, twinOf, FHE_toBytes32, simulationPayload. cbn.
  rewrite mget_insert_eq. cbn. unfold twinOf.
  destruct (FHE_requestCheck _ _); reflexivity.
Qed.

Lemma requestOrganTypeCountDecryption_outcome (organType : string) (s : Storage) :
  requestOrganTypeCountDecryption organType s =
  if FHE_isInitialized (counterOf s organType)
  then match FHE_requestCheck (decryptionRequests s) [counterOf s organType] with
       | Some e => Reverted (LibraryRevert e) s
       | None =>
           Done tt (mkStorage (twinCount s) (encryptedOrganTwins s) (encryptedSimulations s)
             (decryptedResults s) (encryptedOrganTypeCount s) (organTypeList s)
             (<[FHE_nextRequestId (decryptionRequests s) := keccak256_packed organType]>
                (requestToTwinId s))
             (decryptionRequests s ++
                [mkRequest (FHE_nextRequestId (decryptionRequests s))
                   [counterOf s organType] decryptOrganTypeCount_selector])
             (events s))
       end
  else Reverted UnknownCategory s.
Proof.
  unfold requestOrganTypeCountDecryption, FHE_requestDecryption. unfold_monad.
  destruct (FHE_isInitialized (counterOf s organType)); [| reflexivity].
  cbn. unfold FHE_toBytes32. destruct (FHE_requestCheck _ _); reflexivity.
Qed.

Lemma decryptOrganTypeCount_outcome (requestId : Z) (cleartexts proof : list byte)
    (s : Storage) :
  decryptOrganTypeCount requestId cleartexts proof s =
  match findOrganType (organTypeList s) (targetOf s requestId) with
  | None => Reverted UnknownCategory s
  | Some _ =>
      if FHE_signaturesValid (decryptionRequests s) requestId cleartexts proof
      then match abi_decode_uint32 cleartexts with
           | Some _ => Done tt s
           | None => Reverted AbiDecodeFailure s
           end
      else Reverted InvalidProof s
  end.
Proof.
  unfold decryptOrganTypeCount, getOrganTypeFromHash, FHE_checkSignatures, decodeUint32.
  unfold_monad.
  destruct (findOrganType _ _); [| reflexivity].
  destruct (FHE_signaturesValid _ _ _ _); [| reflexivity].
  destruct (abi_decode_uint32 cleartexts); reflexivity.
Qed.

(** A successful [processSimulationResult] passed all three validation
    steps and commits [completedStorage]. *)
Lemma processSimulationResult_done (requestId : Z) (cleartexts proof : list byte)
    (s s' : Storage) :
  processSimulationResult requestId cleartexts proof s = Done tt s' ->
  targetOf s requestId <> 0 /\
  isRevealed (resultOf s (targetOf s requestId)) = false /\
  exists data organType,
    abi_decode_strings cleartexts = Some data /\
    s' = completedStorage (targetOf s requestId) data organType s.
Proof.
  rewrite processSimulationResult_outcome. unfold processOutcome.
  destruct (targetOf s requestId =? 0) eqn:Hid; [discriminate |].
  destruct (isRevealed _) eqn:Hrev; [discriminate |].
  destruct (negb _); [discriminate |].
  destruct (abi_decode_strings cleartexts) as [data |]; [| discriminate].
  destruct (data !! 0%nat) as [organType |]; [| discriminate].
  intros Heq. injection Heq as <-.
  apply Z.eqb_neq in Hid. eauto 6.
Qed.

(** The parts of [completedStorage]. *)
Lemma completedStorage_results (id : Z) (data : list string) (organType : string)
    (s : Storage) :
  decryptedResults (completedStorage id data organType s) =
  <[id := mkSimulationResult (generatePrediction data) (assessRisks data)
            (suggestAdjustments data) true]> (decryptedResults s).
Proof.
  unfold completedStorage. cbn.
  destruct (blindIncrement_frame organType (resultWritten id data s))
    as (_ & _ & _ & -> & _). reflexivity.
Qed.

Lemma completedStorage_tracker (id : Z) (data : list string) (organType : string)
    (s : Storage) :
  requestToTwinId (completedStorage id data organType s) = requestToTwinId s.
Proof.
  unfold completedStorage. cbn.
  destruct (blindIncrement_frame organType (resultWritten id data s))
    as (_ & _ & _ & _ & -> & _). reflexivity.
Qed.

Lemma completedStorage_twinCount (id : Z) (data : list string) (organType : string)
    (s : Storage) :
  twinCount (completedStorage id data organType s) = twinCount s.
Proof.
  unfold completedStorage. cbn.
  destruct (blindIncrement_frame organType (resultWritten id data s)) as (-> & _).
  reflexivity.
Qed.

(** *** What one transaction does to the result records, the tracker and
    the allocation counter *)

Lemma transact_results (c : Call) (s : Storage) :
  decryptedResults (transact c s) = decryptedResults s \/
  (allocates c s (twinCount s + 1) = true /\
   decryptedResults (transact c s) =
   <[twinCount s + 1 := zeroSimulationResult]> (decryptedResults s)) \/
  (exists requestId cleartexts proof data,
     c = ProcessSimulationResult requestId cleartexts proof /\
     succeeds c s = true /\
     targetOf s requestId <> 0 /\
     isRevealed (resultOf s (targetOf s requestId)) = false /\
     decryptedResults (transact c s) =
     <[targetOf s requestId :=
         mkSimulationResult (generatePrediction data) (assessRisks data)
           (suggestAdjustments data) true]> (decryptedResults s)).
Proof.
  unfold transact, succeeds. destruct c as [o p g ts | id d a | id p | r cl pf | o | r cl pf]; cbn.
  - rewrite createEncryptedTwin_outcome.
    destruct (twinCount s + 1 <=? MAX_UINT256); [| by left].
    right; left. split; [apply Z.eqb_refl | reflexivity].
  - rewrite requestDrugSimulation_outcome.
    destruct (id <=? twinCount s); [destruct (FHE_requestCheck _ _) |]; by left.
  - rewrite requestSurgerySimulation_outcome.
    destruct (id <=? twinCount s); [destruct (FHE_requestCheck _ _) |]; by left.
  - destruct (processSimulationResult r cl pf s) as [[] s' | e s'] eqn:Hout; [| by left].
    apply processSimulationResult_done in Hout as (Hid & Hrev & data & organType & _ & ->).
    right; right. exists r, cl, pf, data.
    rewrite completedStorage_results. auto.
  - rewrite requestOrganTypeCountDecryption_outcome.
    destruct (FHE_isInitialized _); [destruct (FHE_requestCheck _ _) |]; by left.
  - rewrite decryptOrganTypeCount_outcome.
    destruct (findOrganType _ _); [| by left].
    destruct (FHE_signaturesValid _ _ _ _); [| by left].
    destruct (abi_decode_uint32 cl); by left.
Qed.

Lemma transact_tracker (c : Call) (s : Storage) :
  requestToTwinId (transact c s) = requestToTwinId s \/
  (registers c s (FHE_nextRequestId (decryptionRequests s)) = true /\
   exists target,
     requestToTwinId (transact c s) =
     <[FHE_nextRequestId (decryptionRequests s) := target]> (requestToTwinId s)).
Proof.
  unfold transact. destruct c as [o p g ts | id d a | id p | r cl pf | o | r cl pf]; cbn.
  - rewrite createEncryptedTwin_outcome.
    destruct (twinCount s + 1 <=? MAX_UINT256); by left.
  - rewrite requestDrugSimulation_outcome. destruct (id <=? twinCount s); [| by left].
    destruct (FHE_requestCheck _ _); [by left |].
    right. split; [apply Z.eqb_refl | by exists id].
  - rewrite requestSurgerySimulation_outcome. destruct (id <=? twinCount s); [| by left].
    destruct (FHE_requestCheck _ _); [by left |].
    right. split; [apply Z.eqb_refl | by exists id].
  - destruct (processSimulationResult r cl pf s) as [[] s' | e s'] eqn:Hout; [| by left].
    apply processSimulationResult_done in Hout as (_ & _ & data & organType & _ & ->).
    left. apply completedStorage_tracker.
  - rewrite requestOrganTypeCountDecryption_outcome.
    destruct (FHE_isInitialized _); [| by left].
    destruct (FHE_requestCheck _ _); [by left |].
    right. split; [apply Z.eqb_refl | by exists (keccak256_packed o)].
  - rewrite decryptOrganTypeCount_outcome.
    destruct (findOrganType _ _); [| by left].
    destruct (FHE_signaturesValid _ _ _ _); [| by left].
    destruct (abi_decode_uint32 cl); by left.
Qed.

Lemma transact_twinCount (c : Call) (s : Storage) :
  twinCount s <= twinCount (transact c s).
Proof.
  unfold transact. destruct c as [o p g ts | id d a | id p | r cl pf | o | r cl pf]; cbn.
  - rewrite createEncryptedTwin_outcome.
    destruct (twinCount s + 1 <=? MAX_UINT256); cbn; lia.
  - rewrite requestDrugSimulation_outcome.
    destruct (id <=? twinCount s); [destruct (FHE_requestCheck _ _) |]; cbn; lia.
  - rewrite requestSurgerySimulation_outcome.
    destruct (id <=? twinCount s); [destruct (FHE_requestCheck _ _) |]; cbn; lia.
  - destruct (processSimulationResult r cl pf s) as [[] s' | e s'] eqn:Hout; [| lia].
    apply processSimulationResult_done in Hout as (_ & _ & data & organType & _ & ->).
    rewrite completedStorage_twinCount. lia.
  - rewrite requestOrganTypeCountDecryption_outcome.
    destruct (FHE_isInitialized _); [destruct (FHE_requestCheck _ _) |]; cbn; lia.
  - rewrite decryptOrganTypeCount_outcome.
    destruct (findOrganType _ _); [| lia].
    destruct (FHE_signaturesValid _ _ _ _); [| lia].
    destruct (abi_decode_uint32 cl); lia.
Qed.

(** *** The revealed flag *)

Lemma transact_keeps_revealed (c : Call) (s : Storage) (t : Z) :
  allocates c s t = false ->
  isRevealed (resultOf s t) = true ->
  isRevealed (resultOf (transact c s) t) = true.
Proof.
  intros Halloc Hrev. unfold resultOf in *.
  destruct (transact_results c s)
    as [-> | [(Hc & ->) | (r & cl & pf & data & -> & _ & _ & Hnot & ->)]].
  - exact Hrev.
  - destruct c; try discriminate. cbn in Halloc.
    apply Z.eqb_neq in Halloc. by rewrite mget_insert_ne.
  - destruct (decide (targetOf s r = t)) as [-> | Hne].
    + by rewrite mget_insert_eq.
    + by rewrite mget_insert_ne.
Qed.

Lemma run_keeps_revealed (t : Z) (cs : list Call) (s : Storage) :
  neverAllocates t cs s = true ->
  isRevealed (resultOf s t) = true ->
  isRevealed (resultOf (run cs s) t) = true.
Proof.
  revert s. induction cs as [| c rest IH]; intros s Hnever Hrev; cbn in *.
  - exact Hrev.
  - apply andb_true_iff in Hnever as [Hc Hrest].
    apply IH; [exact Hrest |].
    apply transact_keeps_revealed; [by apply negb_true_iff | exact Hrev].
Qed.

(** A revealing callback finds the flag false and leaves it true. *)
Lemma reveals_flips (c : Call) (s : Storage) (t : Z) :
  reveals c s t = true ->
  isRevealed (resultOf s t) = false /\ isRevealed (resultOf (transact c s) t) = true.
Proof.
  unfold reveals, succeeds, transact.
  destruct c as [o p g ts | id d a | id p | r cl pf | o | r cl pf]; try discriminate. cbn.
  destruct (processSimulationResult r cl pf s) as [[] s' | e s'] eqn:Hout; [| discriminate].
  cbn. intros Ht%Z.eqb_eq.
  apply processSimulationResult_done in Hout as (_ & Hrev & data & organType & _ & ->).
  rewrite Ht in *. split; [exact Hrev |].
  unfold resultOf. rewrite completedStorage_results. by rewrite mget_insert_eq.
Qed.

(** A transaction that does not reveal [t] leaves an empty, unrevealed
    record of [t] empty and unrevealed. *)
Lemma transact_keeps_empty (c : Call) (s : Storage) (t : Z) :
  reveals c s t = false ->
  resultOf s t = zeroSimulationResult ->
  resultOf (transact c s) t = zeroSimulationResult.
Proof.
  intros Hnot Hzero. unfold resultOf in *.
  destruct (transact_results c s)
    as [-> | [(Hc & ->) | (r & cl & pf & data & -> & Hok & _ & _ & ->)]].
  - exact Hzero.
  - destruct (decide (twinCount s + 1 = t)) as [<- | Hne].
    + by rewrite mget_insert_eq.
    + by rewrite mget_insert_ne.
  - unfold reveals in Hnot. rewrite Hok in Hnot. cbn in Hnot.
    apply Z.eqb_neq in Hnot. by rewrite mget_insert_ne.
Qed.

Lemma run_keeps_empty (t : Z) (cs : list Call) (s : Storage) :
  revealCount t cs s = O ->
  resultOf s t = zeroSimulationResult ->
  resultOf (run cs s) t = zeroSimulationResult.
Proof.
  revert s. induction cs as [| c rest IH]; intros s Hcount Hzero; cbn in *.
  - exact Hzero.
  - destruct (reveals c s t) eqn:Hrev; [discriminate |].
    apply IH; [exact Hcount |]. by apply transact_keeps_empty.
Qed.

Lemma revealCount_after_revealed (t : Z) (cs : list Call) (s : Storage) :
  neverAllocates t cs s = true ->
  isRevealed (resultOf s t) = true ->
  revealCount t cs s = O.
Proof.
  revert s. induction cs as [| c rest IH]; intros s Hnever Hrev; cbn in *.
  - reflexivity.
  - apply andb_true_iff in Hnever as [Hc Hrest].
    destruct (reveals c s t) eqn:Hr.
    + apply reveals_flips in Hr as [Hfalse _]. congruence.
    + cbn. apply IH; [exact Hrest |].
      apply transact_keeps_revealed; [by apply negb_true_iff | exact Hrev].
Qed.

Lemma revealCount_at_most_once (t : Z) (cs : list Call) (s : Storage) :
  neverAllocates t cs s = true ->
  (revealCount t cs s <= 1)%nat.
Proof.
  revert s. induction cs as [| c rest IH]; intros s Hnever; cbn in *.
  - lia.
  - apply andb_true_iff in Hnever as [Hc Hrest].
    destruct (reveals c s t) eqn:Hr.
    + apply reveals_flips in Hr as [_ Htrue].
      rewrite (revealCount_after_revealed t rest (transact c s) Hrest Htrue). lia.
    + cbn. by apply IH.
Qed.

(** Once a twin id is allocated, no later call assigns it again. *)
Lemma allocated_neverAllocates (t : Z) (cs : list Call) (s : Storage) :
  t <= twinCount s -> neverAllocates t cs s = true.
Proof.
  revert s. induction cs as [| c rest IH]; intros s Hle; cbn.
  - reflexivity.
  - apply andb_true_iff. split.
    + apply negb_true_iff. destruct c; cbn; try reflexivity. apply Z.eqb_neq. lia.
    + apply IH. pose proof (transact_twinCount c s). lia.
Qed.

(** C2. The revealed flag of every twin id starts false; as long as no
    successful callback resolved to that id, [getSimulationResult] returns
    three empty texts and [false]; over any history that does not assign
    the id anew with [createEncryptedTwin] (in particular any history
    after the id has been allocated), a flag that is true stays true
    whatever is called, and at most one callback succeeds for the id. *)
Theorem revealed_flag_is_write_once (t : Z) :
  getSimulationResult initialStorage t = ("", "", "", false) /\
  (forall cs, revealCount t cs initialStorage = O ->
     getSimulationResult (run cs initialStorage) t = ("", "", "", false)) /\
  (forall c s, reveals c s t = true ->
     isRevealed (resultOf s t) = false /\ isRevealed (resultOf (transact c s) t) = true) /\
  (forall cs s, neverAllocates t cs s = true ->
     isRevealed (resultOf s t) = true -> isRevealed (resultOf (run cs s) t) = true) /\
  (forall cs s, neverAllocates t cs s = true -> (revealCount t cs s <= 1)%nat) /\
  (forall cs s, t <= twinCount s -> neverAllocates t cs s = true).
Proof.
  assert (Hinit : resultOf initialStorage t = zeroSimulationResult).
  { unfold resultOf. cbn. apply mget_empty. }
  split; [| split; [| split; [| split; [| split]]]].
  - unfold getSimulationResult. by rewrite Hinit.
  - intros cs Hcount. unfold getSimulationResult.
    by rewrite (run_keeps_empty t cs initialStorage Hcount Hinit).
  - intros c s. apply reveals_flips.
  - intros cs s. apply run_keeps_revealed.
  - intros cs s. apply revealCount_at_most_once.
  - intros cs s. apply allocated_neverAllocates.
Qed.

(** *** The request tracker *)

Lemma transact_keeps_target (c : Call) (s : Storage) (requestId : Z) :
  registers c s requestId = false ->
  targetOf (transact c s) requestId = targetOf s requestId.
Proof.
  intros Hnot. unfold targetOf.
  destruct (transact_tracker c s) as [-> | (Hreg & target & ->)]; [reflexivity |].
  apply mget_insert_ne. intros Heq.
  destruct c; cbn in *; try discriminate;
    apply Z.eqb_neq in Hnot; contradiction.
Qed.

Lemma run_keeps_target (requestId : Z) (cs : list Call) (s : Storage) :
  neverRegisters requestId cs s = true ->
  targetOf (run cs s) requestId = targetOf s requestId.
Proof.
  revert s. induction cs as [| c rest IH]; intros s Hnever; cbn in *.
  - reflexivity.
  - apply andb_true_iff in Hnever as [Hc Hrest].
    rewrite (IH _ Hrest). apply transact_keeps_target. by apply negb_true_iff.
Qed.

(** C1 (amended). A callback whose request id was never registered fails
    with [UnknownRequest]; a callback whose request id was resolved by an
    earlier successful callback fails with [AlreadyRevealed], because the
    tracker entry is kept and the revealed flag stops the replay.  In both
    cases the storage at the revert is the storage the call started from,
    so no component of the state changes. *)
Theorem unregistered_or_replayed_callback_rejected
    (requestId : Z) (cleartexts proof : list byte) :
  (forall cs, neverRegisters requestId cs initialStorage = true ->
     let s := run cs initialStorage in
     processSimulationResult requestId cleartexts proof s = Reverted UnknownRequest s /\
     transact (ProcessSimulationResult requestId cleartexts proof) s = s) /\
  (forall s0 cleartexts0 proof0 s1 cs,
     processSimulationResult requestId cleartexts0 proof0 s0 = Done tt s1 ->
     neverRegisters requestId cs s1 = true ->
     neverAllocates (targetOf s0 requestId) cs s1 = true ->
     let s := run cs s1 in
     processSimulationResult requestId cleartexts proof s = Reverted AlreadyRevealed s /\
     transact (ProcessSimulationResult requestId cleartexts proof) s = s).
Proof.
  split.
  - intros cs Hnever s.
    assert (Hid : targetOf s requestId = 0).
    { unfold s. rewrite (run_keeps_target _ _ _ Hnever).
      unfold targetOf. cbn. apply mget_empty. }
    assert (Hout : processSimulationResult requestId cleartexts proof s
                   = Reverted UnknownRequest s).
    { apply validation_failure_reverts. by apply unknown_request. }
    split; [exact Hout |].
    exact (reverted_call_rolls_back (ProcessSimulationResult requestId cleartexts proof)
             s s _ Hout).
  - intros s0 cleartexts0 proof0 s1 cs Hdone Hreg Halloc s.
    apply processSimulationResult_done in Hdone
      as (Hid & _ & data & organType & _ & ->).
    set (s1 := completedStorage (targetOf s0 requestId) data organType s0) in *.
    assert (Htarget : targetOf s requestId = targetOf s0 requestId).
    { unfold s. rewrite (run_keeps_target _ _ _ Hreg).
      unfold targetOf, s1. by rewrite completedStorage_tracker. }
    assert (Hrev : isRevealed (resultOf s (targetOf s requestId)) = true).
    { rewrite Htarget. unfold s. apply run_keeps_revealed; [exact Halloc |].
      unfold resultOf, s1. rewrite completedStorage_results. by rewrite mget_insert_eq. }
    assert (Hout : processSimulationResult requestId cleartexts proof s
                   = Reverted AlreadyRevealed s).
    { apply validation_failure_reverts. apply already_revealed; congruence. }
    split; [exact Hout |].
    exact (reverted_call_rolls_back (ProcessSimulationResult requestId cleartexts proof)
             s s _ Hout).
Qed.

(** C3 (amended). A successful callback keeps the request's tracker
    entry: [processSimulationResult] and [decryptOrganTypeCount] leave the
    whole request tracker as it was, so the request id maps to the same
    target after the callback as before it (for a simulation, to the twin
    that was just revealed). *)
Theorem successful_callback_keeps_tracker_entry
    (requestId : Z) (cleartexts proof : list byte) (s s' : Storage) :
  processSimulationResult requestId cleartexts proof s = Done tt s' \/
  decryptOrganTypeCount requestId cleartexts proof s = Done tt s' ->
  requestToTwinId s' = requestToTwinId s /\
  targetOf s' requestId = targetOf s requestId /\
  (processSimulationResult requestId cleartexts proof s = Done tt s' ->
   targetOf s' requestId <> 0 /\ isRevealed (resultOf s' (targetOf s' requestId)) = true).
Proof.
  intros Hdone.
  assert (Htracker : requestToTwinId s' = requestToTwinId s).
  { destruct Hdone as [Hsim | Hcount].
    - apply processSimulationResult_done in Hsim as (_ & _ & data & organType & _ & ->).
      apply completedStorage_tracker.
    - rewrite decryptOrganTypeCount_outcome in Hcount.
      destruct (findOrganType _ _); [| discriminate].
      destruct (FHE_signaturesValid _ _ _ _); [| discriminate].
      destruct (abi_decode_uint32 cleartexts); [| discriminate].
      by injection Hcount as <-. }
  assert (Htarget : targetOf s' requestId = targetOf s requestId).
  { unfold targetOf. by rewrite Htracker. }
  split; [exact Htracker | split; [exact Htarget |]].
  intros Hsim. rewrite Htarget.
  apply processSimulationResult_done in Hsim as (Hid & _ & data & organType & _ & ->).
  split; [exact Hid |].
  unfold resultOf. rewrite completedStorage_results. by rewrite mget_insert_eq.
Qed.

(** C10. Whatever cleartexts a successful [processSimulationResult]
    callback is given, the result it stores for the resolved twin is the
    same three constant texts, with the flag set. *)
Theorem stored_result_texts_are_constant
    (requestId : Z) (cleartexts proof : list byte) (s s' : Storage) :
  processSimulationResult requestId cleartexts proof s = Done tt s' ->
  getSimulationResult s' (targetOf s requestId) =
  ("Improved cardiac output by 15%", "Low risk of arrhythmia",
   "Reduce dosage by 20% for renal patients", true).
Proof.
  intros Hdone.
  apply processSimulationResult_done in Hdone as (_ & _ & data & organType & _ & ->).
  unfold getSimulationResult, resultOf.
  rewrite completedStorage_results, mget_insert_eq. reflexivity.
Qed.

(** C9. A successful [decryptOrganTypeCount] callback leaves the storage
    it started from: the encrypted counter of every category is the same
    after the callback as before it. *)
Theorem count_decryption_is_read_only
    (requestId : Z) (cleartexts proof : list byte) (s s' : Storage) :
  decryptOrganTypeCount requestId cleartexts proof s = Done tt s' ->
  s' = s /\
  encryptedOrganTypeCount s' = encryptedOrganTypeCount s /\
  (forall organType, counterOf s' organType = counterOf s organType).
Proof.
  rewrite decryptOrganTypeCount_outcome.
  destruct (findOrganType _ _); [| discriminate].
  destruct (FHE_signaturesValid _ _ _ _); [| discriminate].
  destruct (abi_decode_uint32 cleartexts); [| discriminate].
  intros Heq. injection Heq as <-. auto.
Qed.

(** *** Simulation requests *)

(** A twin id above the allocation counter is refused before anything is
    written or requested. *)
Lemma request_beyond_counter_rejected (id a b : Z) (s : Storage) :
  twinCount s < id ->
  requestDrugSimulation id a b s = Reverted InvalidTwin s /\
  requestSurgerySimulation id a s = Reverted InvalidTwin s.
Proof.
  intros Hgt. rewrite requestDrugSimulation_outcome, requestSurgerySimulation_outcome.
  apply Z.leb_gt in Hgt. by rewrite Hgt.
Qed.

(** A twin id within the allocation counter passes the id check; the
    library then decides. *)
Lemma request_within_counter_accepted (id a b : Z) (s : Storage) :
  id <= twinCount s ->
  FHE_requestCheck (decryptionRequests s) (simulationPayload s id a) = None ->
  succeeds (RequestDrugSimulation id a b) s = true /\
  succeeds (RequestSurgerySimulation id a) s = true /\
  decryptionRequests (transact (RequestDrugSimulation id a b) s) =
    decryptionRequests s ++
    [mkRequest (FHE_nextRequestId (decryptionRequests s)) (simulationPayload s id a)
       processSimulationResult_selector] /\
  decryptionRequests (transact (RequestSurgerySimulation id a) s) =
    decryptionRequests s ++
    [mkRequest (FHE_nextRequestId (decryptionRequests s)) (simulationPayload s id a)
       processSimulationResult_selector].
Proof.
  intros Hle%Z.leb_le Hok. unfold succeeds, transact. cbn.
  rewrite requestDrugSimulation_outcome, requestSurgerySimulation_outcome.
  by rewrite Hle, Hok.
Qed.

Lemma request_within_counter_refused (id a b : Z) (s : Storage) (e : LibraryError) :
  id <= twinCount s ->
  FHE_requestCheck (decryptionRequests s) (simulationPayload s id a) = Some e ->
  (exists s', requestDrugSimulation id a b s = Reverted (LibraryRevert e) s') /\
  (exists s', requestSurgerySimulation id a s = Reverted (LibraryRevert e) s') /\
  transact (RequestDrugSimulation id a b) s = s /\
  transact (RequestSurgerySimulation id a) s = s.
Proof.
  intros Hle%Z.leb_le Hno. unfold transact. cbn.
  rewrite requestDrugSimulation_outcome, requestSurgerySimulation_outcome.
  rewrite Hle, Hno. repeat split; eauto.
Qed.

(** C5 (amended). For every twin id above the allocation counter, both
    request functions fail with [InvalidTwin] before any write and issue
    no oracle request.  For every allocated twin id the id check passes
    and the call succeeds, issuing one oracle request over the twin's
    payload, exactly when the FHE library accepts that payload; when the
    library refuses it, the call reverts with the library's error and
    the transaction changes nothing. *)
Theorem simulation_request_id_check_then_library (s : Storage) (id a b : Z) :
  (twinCount s < id ->
     requestDrugSimulation id a b s = Reverted InvalidTwin s /\
     requestSurgerySimulation id a s = Reverted InvalidTwin s /\
     transact (RequestDrugSimulation id a b) s = s /\
     transact (RequestSurgerySimulation id a) s = s) /\
  (1 <= id <= twinCount s ->
     (FHE_requestCheck (decryptionRequests s) (simulationPayload s id a) = None ->
        succeeds (RequestDrugSimulation id a b) s = true /\
        succeeds (RequestSurgerySimulation id a) s = true /\
        decryptionRequests (transact (RequestDrugSimulation id a b) s) =
          decryptionRequests s ++
          [mkRequest (FHE_nextRequestId (decryptionRequests s)) (simulationPayload s id a)
             processSimulationResult_selector] /\
        decryptionRequests (transact (RequestSurgerySimulation id a) s) =
          decryptionRequests s ++
          [mkRequest (FHE_nextRequestId (decryptionRequests s)) (simulationPayload s id a)
             processSimulationResult_selector]) /\
     (forall e,
        FHE_requestCheck (decryptionRequests s) (simulationPayload s id a) = Some e ->
        (exists s', requestDrugSimulation id a b s = Reverted (LibraryRevert e) s') /\
        (exists s', requestSurgerySimulation id a s = Reverted (LibraryRevert e) s') /\
        transact (RequestDrugSimulation id a b) s = s /\
        transact (RequestSurgerySimulation id a) s = s)).
Proof.
  split.
  - intros Hgt. destruct (request_beyond_counter_rejected id a b s Hgt) as [Hdrug Hsurgery].
    unfold transact. cbn. by rewrite Hdrug, Hsurgery.
  - intros [_ Hle]. split.
    + by apply request_within_counter_accepted.
    + intros e. by apply request_within_counter_refused.
Qed.

(** *** Request identifiers *)

(** What one transaction does to the tracker and the request log
    together. *)
Lemma transact_registration (c : Call) (s : Storage) :
  (requestToTwinId (transact c s) = requestToTwinId s /\
   decryptionRequests (transact c s) = decryptionRequests s) \/
  (exists target req,
     FHE_requestCheck (decryptionRequests s) (reqHandles req) = None /\
     reqId req = FHE_nextRequestId (decryptionRequests s) /\
     requestToTwinId (transact c s) =
       <[FHE_nextRequestId (decryptionRequests s) := target]> (requestToTwinId s) /\
     decryptionRequests (transact c s) = decryptionRequests s ++ [req]).
Proof.
  unfold transact. destruct c as [o p g ts | id d a | id p | r cl pf | o | r cl pf]; cbn.
  - rewrite createEncryptedTwin_outcome.
    destruct (twinCount s + 1 <=? MAX_UINT256); by left.
  - rewrite requestDrugSimulation_outcome. destruct (id <=? twinCount s); [| by left].
    destruct (FHE_requestCheck _ _) eqn:Hcheck; [by left |].
    right. eexists id, _. by repeat split.
  - rewrite requestSurgerySimulation_outcome. destruct (id <=? twinCount s); [| by left].
    destruct (FHE_requestCheck _ _) eqn:Hcheck; [by left |].
    right. eexists id, _. by repeat split.
  - left.
    destruct (processSimulationResult r cl pf s) as [[] s' | e s'] eqn:Hout; [| done].
    apply processSimulationResult_done in Hout as (_ & _ & data & organType & _ & ->).
    split; [apply completedStorage_tracker |].
    unfold completedStorage. cbn.
    by destruct (blindIncrement_frame organType (resultWritten (targetOf s r) data s))
      as (_ & _ & _ & _ & _ & -> & _).
  - rewrite requestOrganTypeCountDecryption_outcome.
    destruct (FHE_isInitialized _); [| by left].
    destruct (FHE_requestCheck _ _) eqn:Hcheck; [by left |].
    right. eexists (keccak256_packed o), _. by repeat split.
  - left. rewrite decryptOrganTypeCount_outcome.
    destruct (findOrganType _ _); [| done].
    destruct (FHE_signaturesValid _ _ _ _); [| done].
    by destruct (abi_decode_uint32 cl).
Qed.

(** From deployment on, every identifier in the tracker is the identifier
    of a logged request. *)
Lemma run_tracked_ids_logged (cs : list Call) (s : Storage) :
  (forall r target, requestToTwinId s !! r = Some target ->
     r ∈ reqId <$> decryptionRequests s) ->
  forall r target, requestToTwinId (run cs s) !! r = Some target ->
    r ∈ reqId <$> decryptionRequests (run cs s).
Proof.
  revert s. induction cs as [| c rest IH]; intros s Hinv; cbn; [exact Hinv |].
  apply IH. intros r target.
  destruct (transact_registration c s)
    as [[-> ->] | (newTarget & req & _ & Hid & -> & ->)]; [apply Hinv |].
  rewrite fmap_app, elem_of_app. cbn. rewrite list_elem_of_singleton, Hid.
  destruct (decide (FHE_nextRequestId (decryptionRequests s) = r)) as [<- | Hne].
  - auto.
  - rewrite lookup_insert_ne by done. intros Hr. left. by eapply Hinv.
Qed.

Section UsedIdentifiers.

(** The library refuses a request whose identifier already has saved
    handles. *)
Hypothesis used_id_refused : forall log cts,
  FHE_nextRequestId log ∈ reqId <$> log -> FHE_requestCheck log cts <> None.

Lemma transact_keeps_entry (c : Call) (s : Storage) (r target : Z) :
  (forall r' target', requestToTwinId s !! r' = Some target' ->
     r' ∈ reqId <$> decryptionRequests s) ->
  requestToTwinId s !! r = Some target ->
  requestToTwinId (transact c s) !! r = Some target.
Proof.
  intros Hinv Hr.
  destruct (transact_registration c s)
    as [[-> _] | (newTarget & req & Hcheck & _ & -> & _)]; [exact Hr |].
  destruct (decide (FHE_nextRequestId (decryptionRequests s) = r)) as [Heq | Hne].
  - exfalso. apply (used_id_refused (decryptionRequests s) (reqHandles req)); [| exact Hcheck].
    rewrite Heq. by eapply Hinv.
  - by rewrite lookup_insert_ne.
Qed.

Lemma run_keeps_entry (cs : list Call) (s : Storage) (r target : Z) :
  (forall r' target', requestToTwinId s !! r' = Some target' ->
     r' ∈ reqId <$> decryptionRequests s) ->
  requestToTwinId s !! r = Some target ->
  requestToTwinId (run cs s) !! r = Some target.
Proof.
  revert s. induction cs as [| c rest IH]; intros s Hinv Hr; cbn; [exact Hr |].
  apply IH.
  - apply (run_tracked_ids_logged [c] s Hinv).
  - by apply transact_keeps_entry.
Qed.


End UsedIdentifiers.

(** *** Twin allocation *)

Lemma createdIds_app (l l' : list Event) :
  createdIds (l ++ l') = createdIds l ++ createdIds l'.
Proof.
  induction l as [| e l IH]; cbn; [reflexivity |].
  destruct e; cbn; by rewrite IH.
Qed.

Lemma completedStorage_events (id : Z) (data : list string) (organType : string)
    (s : Storage) :
  events (completedStorage id data organType s) =
  events s ++ [SimulationCompleted id (assessRisks data)].
Proof.
  unfold completedStorage. cbn.
  destruct (blindIncrement_frame organType (resultWritten id data s))
    as (_ & _ & _ & Hres & _ & _ & ->).
  unfold resultOf. rewrite Hres. cbn. by rewrite mget_insert_eq.
Qed.

(** A transaction either assigns no id, or assigns the next one. *)
Lemma transact_created (c : Call) (s : Storage) :
  (twinCount (transact c s) = twinCount s /\
   createdIds (events (transact c s)) = createdIds (events s)) \/
  (twinCount (transact c s) = twinCount s + 1 /\
   createdIds (events (transact c s)) = createdIds (events s) ++ [twinCount s + 1]).
Proof.
  unfold transact. destruct c as [o p g ts | id d a | id p | r cl pf | o | r cl pf]; cbn.
  - rewrite createEncryptedTwin_outcome.
    destruct (twinCount s + 1 <=? MAX_UINT256); [| by left].
    right. cbn. by rewrite createdIds_app.
  - rewrite requestDrugSimulation_outcome. left.
    destruct (id <=? twinCount s); cbn; [| done].
    destruct (FHE_requestCheck _ _); cbn; [done |].
    rewrite createdIds_app. cbn. by rewrite app_nil_r.
  - rewrite requestSurgerySimulation_outcome. left.
    destruct (id <=? twinCount s); cbn; [| done].
    destruct (FHE_requestCheck _ _); cbn; [done |].
    rewrite createdIds_app. cbn. by rewrite app_nil_r.
  - left.
    destruct (processSimulationResult r cl pf s) as [[] s' | e s'] eqn:Hout; [| done].
    apply processSimulationResult_done in Hout as (_ & _ & data & organType & _ & ->).
    rewrite completedStorage_twinCount, completedStorage_events, createdIds_app.
    cbn. by rewrite app_nil_r.
  - rewrite requestOrganTypeCountDecryption_outcome. left.
    destruct (FHE_isInitialized _); [| done]. by destruct (FHE_requestCheck _ _).
  - rewrite decryptOrganTypeCount_outcome. left.
    destruct (findOrganType _ _); [| done].
    destruct (FHE_signaturesValid _ _ _ _); [| done].
    by destruct (abi_decode_uint32 cl).
Qed.

(** The ids assigned so far are exactly 1, 2, ..., [twinCount]. *)
Lemma run_created_ids (cs : list Call) (s : Storage) :
  0 <= twinCount s ->
  createdIds (events s) = seqZ 1 (twinCount s) ->
  0 <= twinCount (run cs s) /\
  createdIds (events (run cs s)) = seqZ 1 (twinCount (run cs s)).
Proof.
  revert s. induction cs as [| c rest IH]; intros s Hpos Hids; cbn.
  - auto.
  - apply IH.
    + pose proof (transact_twinCount c s). lia.
    + destruct (transact_created c s) as [[-> ->] | [-> ->]]; [exact Hids |].
      rewrite seqZ_app by lia. rewrite Hids. f_equal.
      rewrite seqZ_cons by lia. rewrite seqZ_nil by lia. f_equal. lia.
Qed.

Lemma seqZ_strictly_increasing (m n : Z) : StronglySorted Z.lt (seqZ m n).
Proof.
  destruct (decide (n <= 0)) as [Hn | Hn].
  - rewrite seqZ_nil by exact Hn. constructor.
  - rewrite <- (Z2Nat.id n) by lia. induction (Z.to_nat n) as [| k IH].
    + cbn. constructor.
    + rewrite seqZ_S. apply StronglySorted_app. split; [| split].
      * intros x1 x2 Hx1%elem_of_seqZ Hx2%list_elem_of_singleton. lia.
      * exact IH.
      * repeat constructor.
Qed.

(** C7. Over every history of calls from deployment, the ids assigned by
    [createEncryptedTwin] are 1, 2, ..., [twinCount] in that order:
    strictly increasing, positive and without repetition.  Each call made
    while the counter is below the top of [uint256] succeeds, assigns the
    next id, stores the three handles under it with the creation time,
    and initialises the result record of that id to three empty texts
    with the flag false. *)
Theorem twin_ids_increase_and_records_are_initialised :
  (forall cs, let s := run cs initialStorage in
     createdIds (events s) = seqZ 1 (twinCount s) /\
     StronglySorted Z.lt (createdIds (events s)) /\
     Forall (fun id => 0 < id) (createdIds (events s)) /\
     NoDup (createdIds (events s))) /\
  (forall s o p g timestamp, twinCount s < MAX_UINT256 ->
     exists s', createEncryptedTwin o p g timestamp s = Done tt s' /\
       twinCount s' = twinCount s + 1 /\
       encryptedOrganTwins s' !! (twinCount s + 1) =
         Some (mkOrganModel (twinCount s + 1) o p g timestamp) /\
       decryptedResults s' !! (twinCount s + 1) = Some (mkSimulationResult "" "" "" false) /\
       getSimulationResult s' (twinCount s + 1) = ("", "", "", false) /\
       events s' = events s ++ [TwinCreated (twinCount s + 1) timestamp]).
Proof.
  split.
  - intros cs s.
    destruct (run_created_ids cs initialStorage) as [_ Hids]; [done | done |].
    fold s in Hids. rewrite Hids.
    split; [reflexivity | split; [apply seqZ_strictly_increasing | split]].
    + apply Forall_seqZ. lia.
    + apply NoDup_seqZ.
  - intros s o p g timestamp Hlt. rewrite createEncryptedTwin_outcome.
    assert (Hle : (twinCount s + 1 <=? MAX_UINT256) = true) by (apply Z.leb_le; lia).
    rewrite Hle. eexists. split; [reflexivity |]. cbn.
    unfold getSimulationResult, resultOf. cbn.
    rewrite !lookup_insert_eq, mget_insert_eq. auto 10.
Qed.

(** *** The encrypted category counters *)

Lemma blindIncrement_other (organType other : string) (s : Storage) :
  other <> organType ->
  counterOf (blindIncrement organType s) other = counterOf s other.
Proof.
  intros Hne. unfold counterOf. rewrite blindIncrement_counters.
  by apply mget_insert_ne.
Qed.

Lemma blindIncrements_other (n : nat) (organType other : string) (s : Storage) :
  other <> organType ->
  counterOf (blindIncrements n organType s) other = counterOf s other.
Proof.
  intros Hne. induction n as [| k IH]; cbn; [reflexivity |].
  by rewrite blindIncrement_other.
Qed.

Lemma blindIncrement_same (organType : string) (s : Storage) :
  counterOf (blindIncrement organType s) organType =
  FHE_add (if FHE_isInitialized (counterOf s organType)
           then counterOf s organType else FHE_asEuint32 0)
          (FHE_asEuint32 1).
Proof.
  unfold counterOf at 1. rewrite blindIncrement_counters. apply mget_insert_eq.
Qed.

(** A category enters the list of known categories when it is first
    counted, and only then. *)
Lemma blindIncrement_list (organType : string) (s : Storage) :
  organTypeList (blindIncrement organType s) =
  if FHE_isInitialized (counterOf s organType)
  then organTypeList s
  else organTypeList s ++ [organType].
Proof.
  unfold blindIncrement, updateOrganTypeStatistics. unfold_monad.
  destruct (FHE_isInitialized (counterOf s organType)); reflexivity.
Qed.

Section ExactArithmetic.

(** The plaintext behind a handle, with the homomorphic primitives read
    as exact arithmetic: the encryption of zero decrypts to 0, adding the
    encryption of one adds 1, and a sum is an initialised handle. *)
Variable plain : Z -> Z.
Hypothesis plain_zero : plain (FHE_asEuint32 0) = 0.
Hypothesis plain_add_one : forall h, plain (FHE_add h (FHE_asEuint32 1)) = plain h + 1.
Hypothesis add_initialized : forall a b, FHE_isInitialized (FHE_add a b) = true.

Lemma blindIncrements_fresh (n : nat) (organType : string) (s : Storage) :
  FHE_isInitialized (counterOf s organType) = false ->
  FHE_isInitialized (counterOf (blindIncrements (S n) organType s) organType) = true /\
  plain (counterOf (blindIncrements (S n) organType s) organType) = Z.of_nat (S n).
Proof.
  intros Hfresh. induction n as [| k [IHinit IHplain]].
  - cbn. rewrite blindIncrement_same, Hfresh.
    split; [apply add_initialized |]. by rewrite plain_add_one, plain_zero.
  - change (blindIncrements (S (S k)) organType s)
      with (blindIncrement organType (blindIncrements (S k) organType s)).
    rewrite blindIncrement_same, IHinit.
    split; [apply add_initialized |]. rewrite plain_add_one, IHplain. lia.
Qed.

(** C6. With the homomorphic primitives read as exact arithmetic, [n]
    increments of a fresh category leave a counter that decrypts to [n];
    the increments leave the counter of every other category as it was. *)
Theorem blind_counter_counts (n : nat) (organType : string) (s : Storage) :
  FHE_isInitialized (counterOf s organType) = false ->
  (0 < n)%nat ->
  plain (counterOf (blindIncrements n organType s) organType) = Z.of_nat n /\
  (forall other, other <> organType ->
     counterOf (blindIncrements n organType s) other = counterOf s other).
Proof.
  intros Hfresh Hn. split.
  - destruct n as [| k]; [lia |]. by apply blindIncrements_fresh.
  - intros other Hne. by apply blindIncrements_other.
Qed.

End ExactArithmetic.

End Properties.

(** * Further properties of the contract *)

Section Callbacks.

Context {P : Platform}.

(** A successful [processSimulationResult], with everything it checked
    and decoded on the way. *)
Lemma processSimulationResult_done_full (requestId : Z) (cleartexts proof : list byte)
    (s s' : Storage) :
  processSimulationResult requestId cleartexts proof s = Done tt s' ->
  targetOf s requestId <> 0 /\
  isRevealed (resultOf s (targetOf s requestId)) = false /\
  FHE_signaturesValid (decryptionRequests s) requestId cleartexts proof = true /\
  exists data organType,
    abi_decode_strings cleartexts = Some data /\
    data !! 0%nat = Some organType /\
    s' = completedStorage (targetOf s requestId) data organType s.
Proof.
  rewrite processSimulationResult_outcome. unfold processOutcome.
  destruct (targetOf s requestId =? 0) eqn:Hid; [discriminate |].
  destruct (isRevealed _) eqn:Hrev; [discriminate |].
  destruct (FHE_signaturesValid _ _ _ _) eqn:Hsig; [| discriminate]. cbn.
  destruct (abi_decode_strings cleartexts) as [data |]; [| discriminate].
  destruct (data !! 0%nat) as [organType |] eqn:Hhead; [| discriminate].
  intros Heq. injection Heq as <-.
  apply Z.eqb_neq in Hid. eauto 10.
Qed.

(** The callback succeeds as soon as the three checks pass and the
    cleartexts decode to a non-empty array. *)
Lemma processSimulationResult_succeeds (requestId : Z) (cleartexts proof : list byte)
    (s : Storage) (data : list string) (organType : string) :
  targetOf s requestId <> 0 ->
  isRevealed (resultOf s (targetOf s requestId)) = false ->
  FHE_signaturesValid (decryptionRequests s) requestId cleartexts proof = true ->
  abi_decode_strings cleartexts = Some data ->
  data !! 0%nat = Some organType ->
  processSimulationResult requestId cleartexts proof s =
  Done tt (completedStorage (targetOf s requestId) data organType s).
Proof.
  intros Hid Hrev Hsig Hdec Hhead.
  rewrite processSimulationResult_outcome. unfold processOutcome.
  apply Z.eqb_neq in Hid. by rewrite Hid, Hrev, Hsig, Hdec, Hhead.
Qed.

Lemma completedStorage_counters (id : Z) (data : list string) (organType : string)
    (s : Storage) :
  encryptedOrganTypeCount (completedStorage id data organType s) =
  <[organType :=
      FHE_add (if FHE_isInitialized (counterOf s organType)
               then counterOf s organType else FHE_asEuint32 0)
              (FHE_asEuint32 1)]> (encryptedOrganTypeCount s).
Proof. unfold completedStorage. cbn. by rewrite blindIncrement_counters. Qed.

Lemma completedStorage_list (id : Z) (data : list string) (organType : string)
    (s : Storage) :
  organTypeList (completedStorage id data organType s) =
  if FHE_isInitialized (counterOf s organType)
  then organTypeList s
  else organTypeList s ++ [organType].
Proof. unfold completedStorage. cbn. by rewrite blindIncrement_list. Qed.

Lemma completedStorage_rest (id : Z) (data : list string) (organType : string)
    (s : Storage) :
  encryptedOrganTwins (completedStorage id data organType s) = encryptedOrganTwins s /\
  encryptedSimulations (completedStorage id data organType s) = encryptedSimulations s /\
  decryptionRequests (completedStorage id data organType s) = decryptionRequests s.
Proof.
  unfold completedStorage. cbn.
  destruct (blindIncrement_frame organType (resultWritten id data s))
    as (_ & -> & -> & _ & _ & -> & _). auto.
Qed.

(** X1. When the three checks pass but the cleartexts decode to an empty
    array, the callback panics on [simulationData[0]] (0x32) after the
    result was written; when the cleartexts do not decode, it reverts
    before any write.  Either way the transaction is rolled back: the
    twin stays unrevealed and nothing is counted. *)
Theorem callback_without_category_reverts
    (requestId : Z) (cleartexts proof : list byte) (s : Storage) :
  targetOf s requestId <> 0 ->
  isRevealed (resultOf s (targetOf s requestId)) = false ->
  FHE_signaturesValid (decryptionRequests s) requestId cleartexts proof = true ->
  (abi_decode_strings cleartexts = Some [] ->
     processSimulationResult requestId cleartexts proof s =
       Reverted (Panic 50) (resultWritten (targetOf s requestId) [] s) /\
     isRevealed (resultOf (resultWritten (targetOf s requestId) [] s)
                   (targetOf s requestId)) = true) /\
  (abi_decode_strings cleartexts = None ->
     processSimulationResult requestId cleartexts proof s = Reverted AbiDecodeFailure s) /\
  (abi_decode_strings cleartexts = Some [] \/ abi_decode_strings cleartexts = None ->
     transact (ProcessSimulationResult requestId cleartexts proof) s = s).
Proof.
  intros Hid%Z.eqb_neq Hrev Hsig.
  assert (Hempty : abi_decode_strings cleartexts = Some [] ->
    processSimulationResult requestId cleartexts proof s =
    Reverted (Panic 50) (resultWritten (targetOf s requestId) [] s)).
  { intros Hdec. rewrite processSimulationResult_outcome. unfold processOutcome.
    by rewrite Hid, Hrev, Hsig, Hdec. }
  assert (Hnone : abi_decode_strings cleartexts = None ->
    processSimulationResult requestId cleartexts proof s = Reverted AbiDecodeFailure s).
  { intros Hdec. rewrite processSimulationResult_outcome. unfold processOutcome.
    by rewrite Hid, Hrev, Hsig, Hdec. }
  split; [| split; [exact Hnone |]].
  - intros Hdec. split; [by apply Hempty |].
    unfold resultWritten, resultOf. cbn. by rewrite mget_insert_eq.
  - intros [Hdec | Hdec]; unfold transact; cbn.
    + by rewrite (Hempty Hdec).
    + by rewrite (Hnone Hdec).
Qed.

(** X2. A successful [processSimulationResult] writes the result record
    of the resolved twin, adds one to the counter of the category named
    by the first cleartext (starting it from an encrypted zero and
    listing the category when it is new) and logs one
    [SimulationCompleted] event with the risk text; twins, simulation
    parameters, the allocation counter, the tracker, the request log,
    the other result records and the other counters are untouched. *)
Theorem successful_callback_effects
    (requestId : Z) (cleartexts proof : list byte) (s s' : Storage) :
  processSimulationResult requestId cleartexts proof s = Done tt s' ->
  exists data organType,
    abi_decode_strings cleartexts = Some data /\
    data !! 0%nat = Some organType /\
    counterOf s' organType =
      FHE_add (if FHE_isInitialized (counterOf s organType)
               then counterOf s organType else FHE_asEuint32 0)
              (FHE_asEuint32 1) /\
    (forall other, other <> organType -> counterOf s' other = counterOf s other) /\
    organTypeList s' =
      (if FHE_isInitialized (counterOf s organType)
       then organTypeList s else organTypeList s ++ [organType]) /\
    (forall id, id <> targetOf s requestId -> resultOf s' id = resultOf s id) /\
    events s' = events s ++ [SimulationCompleted (targetOf s requestId)
                               "Low risk of arrhythmia"] /\
    twinCount s' = twinCount s /\
    encryptedOrganTwins s' = encryptedOrganTwins s /\
    encryptedSimulations s' = encryptedSimulations s /\
    requestToTwinId s' = requestToTwinId s /\
    decryptionRequests s' = decryptionRequests s.
Proof.
  intros Hdone.
  apply processSimulationResult_done_full in Hdone
    as (_ & _ & _ & data & organType & Hdec & Hhead & ->).
  exists data, organType.
  destruct (completedStorage_rest (targetOf s requestId) data organType s)
    as (Htwins & Hsims & Hlog).
  split; [exact Hdec | split; [exact Hhead |]].
  split; [| split; [| split; [| split; [| split]]]].
  - unfold counterOf at 1. rewrite completedStorage_counters. apply mget_insert_eq.
  - intros other Hne. unfold counterOf. rewrite completedStorage_counters.
    by apply mget_insert_ne.
  - apply completedStorage_list.
  - intros id Hne. unfold resultOf. rewrite completedStorage_results.
    by apply mget_insert_ne.
  - apply completedStorage_events.
  - rewrite completedStorage_twinCount, completedStorage_tracker. auto.
Qed.

End Callbacks.

Section Categories.

Context {P : Platform}.

(** What one transaction does to the category counters and the list of
    known categories. *)
Lemma transact_counters (c : Call) (s : Storage) :
  match completion c s with
  | Some organType =>
      encryptedOrganTypeCount (transact c s) =
        <[organType :=
            FHE_add (if FHE_isInitialized (counterOf s organType)
                     then counterOf s organType else FHE_asEuint32 0)
                    (FHE_asEuint32 1)]> (encryptedOrganTypeCount s) /\
      organTypeList (transact c s) =
        (if FHE_isInitialized (counterOf s organType)
         then organTypeList s else organTypeList s ++ [organType])
  | None =>
      encryptedOrganTypeCount (transact c s) = encryptedOrganTypeCount s /\
      organTypeList (transact c s) = organTypeList s
  end.
Proof.
  unfold completion, succeeds, transact.
  destruct c as [o p g ts | id d a | id p | r cl pf | o | r cl pf]; cbn.
  - rewrite createEncryptedTwin_outcome.
    by destruct (twinCount s + 1 <=? MAX_UINT256).
  - rewrite requestDrugSimulation_outcome.
    destruct (id <=? twinCount s); [| done]. by destruct (FHE_requestCheck _ _).
  - rewrite requestSurgerySimulation_outcome.
    destruct (id <=? twinCount s); [| done]. by destruct (FHE_requestCheck _ _).
  - destruct (processSimulationResult r cl pf s) as [[] s' | e s'] eqn:Hout; [| done].
    apply processSimulationResult_done_full in Hout
      as (_ & _ & _ & data & organType & -> & -> & ->).
    split; [apply completedStorage_counters | apply completedStorage_list].
  - rewrite requestOrganTypeCountDecryption_outcome.
    destruct (FHE_isInitialized _); [| done]. by destruct (FHE_requestCheck _ _).
  - rewrite decryptOrganTypeCount_outcome.
    destruct (findOrganType _ _); [| done].
    destruct (FHE_signaturesValid _ _ _ _); [| done].
    by destruct (abi_decode_uint32 cl).
Qed.

Lemma transact_counter_at (organType : string) (c : Call) (s : Storage) :
  counterOf (transact c s) organType =
  if bool_decide (completion c s = Some organType)
  then FHE_add (if FHE_isInitialized (counterOf s organType)
                then counterOf s organType else FHE_asEuint32 0)
               (FHE_asEuint32 1)
  else counterOf s organType.
Proof.
  pose proof (transact_counters c s) as Hc. unfold counterOf at 1.
  destruct (completion c s) as [counted |].
  - destruct Hc as [-> _]. case_bool_decide as Heq.
    + injection Heq as ->. apply mget_insert_eq.
    + apply mget_insert_ne. congruence.
  - destruct Hc as [-> _]. by rewrite bool_decide_eq_false_2.
Qed.

(** A history without a callback for a category leaves its counter. *)
Lemma run_counter_untouched (organType : string) (cs : list Call) (s : Storage) :
  completedCount organType cs s = O ->
  counterOf (run cs s) organType = counterOf s organType.
Proof.
  revert s. induction cs as [| c rest IH]; intros s Hcount; cbn in *; [reflexivity |].
  case_bool_decide as Hc; [discriminate |].
  rewrite (IH _ Hcount), transact_counter_at. by rewrite bool_decide_eq_false_2.
Qed.

Section Laws.

Hypothesis zero_uninitialized : FHE_isInitialized 0 = false.

(** X5. On a contract where no callback has yet counted a category, a
    count-decryption request for it reverts with "Organ type not found"
    before anything is written or requested. *)
Theorem uncounted_category_cannot_be_requested (organType : string) (cs : list Call) :
  completedCount organType cs initialStorage = O ->
  let s := run cs initialStorage in
  requestOrganTypeCountDecryption organType s = Reverted UnknownCategory s /\
  transact (RequestOrganTypeCountDecryption organType) s = s.
Proof.
  intros Hcount s.
  assert (Hout : requestOrganTypeCountDecryption organType s = Reverted UnknownCategory s).
  { rewrite requestOrganTypeCountDecryption_outcome. unfold s.
    rewrite (run_counter_untouched _ _ _ Hcount).
    unfold counterOf. cbn. rewrite mget_empty. by rewrite zero_uninitialized. }
  split; [exact Hout |]. unfold transact. cbn. by rewrite Hout.
Qed.

Hypothesis add_initialized : forall a b, FHE_isInitialized (FHE_add a b) = true.

Lemma transact_known_categories (c : Call) (s : Storage) :
  NoDup (organTypeList s) ->
  (forall organType,
     organType ∈ organTypeList s <-> FHE_isInitialized (counterOf s organType) = true) ->
  NoDup (organTypeList (transact c s)) /\
  (forall organType,
     organType ∈ organTypeList (transact c s) <->
     FHE_isInitialized (counterOf (transact c s) organType) = true).
Proof.
  intros Hnodup Hlisted. pose proof (transact_counters c s) as Hc.
  destruct (completion c s) as [counted |] eqn:Hcompl.
  - destruct Hc as [_ Hlist]. rewrite Hlist.
    destruct (FHE_isInitialized (counterOf s counted)) eqn:Hinit.
    + split; [exact Hnodup |]. intros organType.
      rewrite (transact_counter_at organType c s), Hcompl.
      case_bool_decide as Heq.
      * injection Heq as ->. rewrite add_initialized. split; [done |].
        intros _. by apply Hlisted.
      * apply Hlisted.
    + assert (Hfresh : counted ∉ organTypeList s).
      { intros Hin%Hlisted. congruence. }
      split.
      * apply NoDup_app. split; [exact Hnodup | split].
        -- intros x Hx Hx'%list_elem_of_singleton. by subst.
        -- apply NoDup_singleton.
      * intros organType. rewrite elem_of_app, list_elem_of_singleton.
        rewrite (transact_counter_at organType c s), Hcompl.
        case_bool_decide as Heq.
        -- injection Heq as ->. rewrite add_initialized. split; auto.
        -- rewrite Hlisted. split; [intros [H | H]; [exact H | congruence] | auto].
  - destruct Hc as [_ Hlist]. rewrite Hlist.
    split; [exact Hnodup |]. intros organType.
    rewrite (transact_counter_at organType c s), Hcompl.
    rewrite bool_decide_eq_false_2 by done. apply Hlisted.
Qed.

(** X4. Over every history from deployment, the list of known categories
    has no repetition, and a category is listed exactly when its counter
    is an initialised handle. *)
Theorem known_categories_are_listed_once (cs : list Call) :
  let s := run cs initialStorage in
  NoDup (organTypeList s) /\
  (forall organType,
     organType ∈ organTypeList s <-> FHE_isInitialized (counterOf s organType) = true).
Proof.
  cbn.
  assert (Hgen : forall s,
    NoDup (organTypeList s) ->
    (forall organType,
       organType ∈ organTypeList s <-> FHE_isInitialized (counterOf s organType) = true) ->
    NoDup (organTypeList (run cs s)) /\
    (forall organType,
       organType ∈ organTypeList (run cs s) <->
       FHE_isInitialized (counterOf (run cs s) organType) = true)).
  { induction cs as [| c rest IH]; intros s Hnodup Hlisted; cbn; [by split |].
    destruct (transact_known_categories c s Hnodup Hlisted) as [Hn Hl].
    by apply IH. }
  apply Hgen.
  - cbn. apply NoDup_nil_2.
  - intros organType. unfold counterOf. cbn. rewrite mget_empty, zero_uninitialized.
    split; [intros Hin; by apply elem_of_nil in Hin | discriminate].
Qed.

(** The plaintext behind a handle, read as exact arithmetic. *)
Variable plain : Z -> Z.
Hypothesis plain_zero : plain (FHE_asEuint32 0) = 0.
Hypothesis plain_add_one : forall h, plain (FHE_add h (FHE_asEuint32 1)) = plain h + 1.

Lemma run_counter_counts (organType : string) (cs : list Call) (s : Storage) (k : nat) :
  (k = O -> FHE_isInitialized (counterOf s organType) = false) ->
  ((0 < k)%nat ->
     FHE_isInitialized (counterOf s organType) = true /\
     plain (counterOf s organType) = Z.of_nat k) ->
  (0 < k + completedCount organType cs s)%nat ->
  FHE_isInitialized (counterOf (run cs s) organType) = true /\
  plain (counterOf (run cs s) organType) = Z.of_nat (k + completedCount organType cs s).
Proof.
  revert s k. induction cs as [| c rest IH]; intros s k Hzero Hpos Hn; cbn in *.
  - rewrite Nat.add_0_r in *. by apply Hpos.
  - pose proof (transact_counter_at organType c s) as Hat.
    case_bool_decide as Hc.
    + replace (k + (1 + completedCount organType rest (transact c s)))%nat
        with (S k + completedCount organType rest (transact c s))%nat in * by lia.
      apply IH; [discriminate | | exact Hn].
      intros _. rewrite Hat. split; [apply add_initialized |].
      rewrite plain_add_one. destruct k as [| k'].
      * rewrite Hzero by reflexivity. rewrite plain_zero. lia.
      * destruct Hpos as [-> ->]; lia.
    + cbn in *. apply IH; [| | exact Hn]; rewrite Hat; assumption.
Qed.

(** X3. With the homomorphic primitives read as exact arithmetic, over
    every history from deployment the counter of a category decrypts to
    the number of successful callbacks whose first cleartext is that
    category; while there is none, the counter is the zero handle. *)
Theorem callbacks_are_counted_per_category (organType : string) (cs : list Call) :
  let s := run cs initialStorage in
  let n := completedCount organType cs initialStorage in
  (n = O -> counterOf s organType = 0) /\
  ((0 < n)%nat ->
     FHE_isInitialized (counterOf s organType) = true /\
     plain (counterOf s organType) = Z.of_nat n).
Proof.
  cbn. split.
  - intros Hn. rewrite (run_counter_untouched _ _ _ Hn).
    unfold counterOf. cbn. apply mget_empty.
  - intros Hn.
    apply (run_counter_counts organType cs initialStorage O); [| lia | exact Hn].
    intros _. unfold counterOf. cbn. by rewrite mget_empty.
Qed.

End Laws.

(** The loop of [getOrganTypeFromHash] returns the first listed category
    with the given hash, and nothing when no listed category has it. *)
Lemma findOrganType_Some (l : list string) (hash : Z) (organType : string) :
  findOrganType l hash = Some organType <->
  exists before after,
    l = before ++ organType :: after /\
    keccak256_packed organType = hash /\
    Forall (fun o => keccak256_packed o <> hash) before.
Proof.
  induction l as [| x rest IH]; cbn.
  - split; [discriminate |]. intros (before & after & Heq & _).
    by destruct before.
  - unfold bytes32ToUint. destruct (keccak256_packed x =? hash) eqn:Hx.
    + apply Z.eqb_eq in Hx. split.
      * intros [= <-]. exists [], rest. by repeat split.
      * intros (before & after & Heq & Hhash & Hbefore).
        destruct before as [| y before']; cbn in Heq.
        -- by injection Heq as ->.
        -- injection Heq as -> _. apply Forall_cons in Hbefore as [Hy _]. congruence.
    + apply Z.eqb_neq in Hx. rewrite IH. split.
      * intros (before & after & -> & Hhash & Hbefore).
        exists (x :: before), after. repeat split; [done |]. by constructor.
      * intros (before & after & Heq & Hhash & Hbefore).
        destruct before as [| y before']; cbn in Heq.
        -- injection Heq as -> _. congruence.
        -- injection Heq as -> ->. apply Forall_cons in Hbefore as [_ Hbefore].
           by exists before', after.
Qed.

Lemma findOrganType_None (l : list string) (hash : Z) :
  findOrganType l hash = None <-> Forall (fun o => keccak256_packed o <> hash) l.
Proof.
  induction l as [| x rest IH]; cbn.
  - split; [constructor | done].
  - unfold bytes32ToUint. destruct (keccak256_packed x =? hash) eqn:Hx.
    + apply Z.eqb_eq in Hx. split; [discriminate |].
      intros [Hne _]%Forall_cons. congruence.
    + apply Z.eqb_neq in Hx. rewrite IH. split.
      * intros Hrest. by constructor.
      * by intros [_ Hrest]%Forall_cons.
Qed.

(** X7. [getOrganTypeFromHash] never writes; it returns the first listed
    category whose hash is the one asked for, and reverts with "Organ
    type not found" exactly when no listed category has that hash. *)
Theorem organ_type_lookup_finds_first_match (hash : Z) (s : Storage) :
  (forall organType s',
     getOrganTypeFromHash hash s = Done organType s' <->
     s' = s /\
     exists before after,
       organTypeList s = before ++ organType :: after /\
       keccak256_packed organType = hash /\
       Forall (fun o => keccak256_packed o <> hash) before) /\
  (forall e s',
     getOrganTypeFromHash hash s = Reverted e s' <->
     e = UnknownCategory /\ s' = s /\
     Forall (fun o => keccak256_packed o <> hash) (organTypeList s)).
Proof.
  unfold getOrganTypeFromHash. split.
  - intros organType s'. rewrite <- findOrganType_Some.
    destruct (findOrganType (organTypeList s) hash) as [found |].
    + split; [intros [= <- <-]; by split | intros [-> [= ->]]; reflexivity].
    + split; [discriminate | intros [_ [=]]].
  - intros e s'. rewrite <- findOrganType_None.
    destruct (findOrganType (organTypeList s) hash) as [found |].
    + split; [discriminate | intros (_ & _ & [=])].
    + split; [intros [= <- <-]; by repeat split | intros (-> & -> & _); reflexivity].
Qed.

(** X8. A count callback whose request id resolves to no listed
    category reverts with "Organ type not found", whatever the proof;
    on a contract that has counted nothing, every count callback does. *)
Theorem count_callback_for_unlisted_target_reverts
    (requestId : Z) (cleartexts proof : list byte) (s : Storage) :
  Forall (fun o => keccak256_packed o <> targetOf s requestId) (organTypeList s) ->
  decryptOrganTypeCount requestId cleartexts proof s = Reverted UnknownCategory s.
Proof.
  intros Hnone%findOrganType_None.
  rewrite decryptOrganTypeCount_outcome. by rewrite Hnone.
Qed.

(** X6. For a listed category, a count-decryption request registers the
    category key under the identifier the oracle returns, and the count
    callback for that identifier, given a valid proof and a decodable
    count, succeeds and leaves the storage as the request left it. *)
Theorem count_request_round_trip
    (organType : string) (cleartexts proof : list byte) (count : Z) (s s1 : Storage) :
  organType ∈ organTypeList s ->
  requestOrganTypeCountDecryption organType s = Done tt s1 ->
  FHE_signaturesValid (decryptionRequests s1)
    (FHE_nextRequestId (decryptionRequests s)) cleartexts proof = true ->
  abi_decode_uint32 cleartexts = Some count ->
  targetOf s1 (FHE_nextRequestId (decryptionRequests s)) = keccak256_packed organType /\
  decryptOrganTypeCount (FHE_nextRequestId (decryptionRequests s)) cleartexts proof s1
    = Done tt s1.
Proof.
  intros Hin Hreq Hsig Hdec.
  rewrite requestOrganTypeCountDecryption_outcome in Hreq.
  destruct (FHE_isInitialized (counterOf s organType)); [| discriminate].
  destruct (FHE_requestCheck _ _); [discriminate |].
  injection Hreq as <-.
  assert (Htarget : targetOf
    (mkStorage (twinCount s) (encryptedOrganTwins s) (encryptedSimulations s)
       (decryptedResults s) (encryptedOrganTypeCount s) (organTypeList s)
       (<[FHE_nextRequestId (decryptionRequests s) := keccak256_packed organType]>
          (requestToTwinId s))
       (decryptionRequests s ++
          [mkRequest (FHE_nextRequestId (decryptionRequests s))
             [counterOf s organType] decryptOrganTypeCount_selector])
       (events s)) (FHE_nextRequestId (decryptionRequests s))
    = keccak256_packed organType).
  { unfold targetOf. cbn. apply mget_insert_eq. }
  split; [exact Htarget |].
  rewrite decryptOrganTypeCount_outcome, Htarget. cbn in *.
  destruct (findOrganType (organTypeList s) (keccak256_packed organType)) as [found |] eqn:Hfind.
  - by rewrite Hsig, Hdec.
  - apply findOrganType_None in Hfind. rewrite Forall_forall in Hfind.
    by destruct (Hfind organType Hin).
Qed.

End Categories.

Section Records.

Context {P : Platform}.

(** What one transaction does to the table of twins. *)
Lemma transact_twins (c : Call) (s : Storage) :
  (twinCount (transact c s) = twinCount s /\
   encryptedOrganTwins (transact c s) = encryptedOrganTwins s) \/
  (exists o p g timestamp,
     c = CreateEncryptedTwin o p g timestamp /\
     twinCount (transact c s) = twinCount s + 1 /\
     encryptedOrganTwins (transact c s) =
     <[twinCount s + 1 := mkOrganModel (twinCount s + 1) o p g timestamp]>
       (encryptedOrganTwins s)).
Proof.
  unfold transact. destruct c as [o p g ts | id d a | id p | r cl pf | o | r cl pf]; cbn.
  - rewrite createEncryptedTwin_outcome.
    destruct (twinCount s + 1 <=? MAX_UINT256); [| by left].
    right. by exists o, p, g, ts.
  - rewrite requestDrugSimulation_outcome. left.
    destruct (id <=? twinCount s); [| done]. by destruct (FHE_requestCheck _ _).
  - rewrite requestSurgerySimulation_outcome. left.
    destruct (id <=? twinCount s); [| done]. by destruct (FHE_requestCheck _ _).
  - left.
    destruct (processSimulationResult r cl pf s) as [[] s' | e s'] eqn:Hout; [| done].
    apply processSimulationResult_done in Hout as (_ & _ & data & organType & _ & ->).
    rewrite completedStorage_twinCount.
    by destruct (completedStorage_rest (targetOf s r) data organType s) as (-> & _).
  - rewrite requestOrganTypeCountDecryption_outcome. left.
    destruct (FHE_isInitialized _); [| done]. by destruct (FHE_requestCheck _ _).
  - rewrite decryptOrganTypeCount_outcome. left.
    destruct (findOrganType _ _); [| done].
    destruct (FHE_signaturesValid _ _ _ _); [| done].
    by destruct (abi_decode_uint32 cl).
Qed.

Lemma run_twinCount (cs : list Call) (s : Storage) :
  twinCount s <= twinCount (run cs s).
Proof.
  revert s. induction cs as [| c rest IH]; intros s; cbn; [lia |].
  pose proof (transact_twinCount c s). pose proof (IH (transact c s)). lia.
Qed.

Lemma run_keeps_twin (cs : list Call) (s : Storage) (id : Z) :
  id <= twinCount s ->
  encryptedOrganTwins (run cs s) !! id = encryptedOrganTwins s !! id.
Proof.
  revert s. induction cs as [| c rest IH]; intros s Hle; cbn; [reflexivity |].
  pose proof (transact_twinCount c s) as Hmono.
  rewrite IH by lia.
  destruct (transact_twins c s) as [[_ ->] | (o & p & g & ts & _ & _ & ->)]; [reflexivity |].
  apply lookup_insert_ne. lia.
Qed.

Lemma run_twin_table (cs : list Call) (s : Storage) :
  0 <= twinCount s ->
  (forall id, 1 <= id <= twinCount s ->
     exists m, encryptedOrganTwins s !! id = Some m /\ twinId m = id) ->
  (forall id, ~ 1 <= id <= twinCount s -> encryptedOrganTwins s !! id = None) ->
  (forall id, 1 <= id <= twinCount (run cs s) ->
     exists m, encryptedOrganTwins (run cs s) !! id = Some m /\ twinId m = id) /\
  (forall id, ~ 1 <= id <= twinCount (run cs s) ->
     encryptedOrganTwins (run cs s) !! id = None).
Proof.
  revert s. induction cs as [| c rest IH]; intros s Hpos Hin Hout; cbn; [by split |].
  pose proof (transact_twinCount c s) as Hmono.
  apply IH; [lia | |];
    destruct (transact_twins c s) as [[-> ->] | (o & p & g & ts & _ & -> & ->)];
    try assumption.
  - intros id Hid. destruct (decide (id = twinCount s + 1)) as [-> | Hne].
    + rewrite lookup_insert_eq. by eexists.
    + rewrite lookup_insert_ne by done. apply Hin. lia.
  - intros id Hid. rewrite lookup_insert_ne by lia. apply Hout. lia.
Qed.

(** X9. A twin record is permanent: once an id is within the allocation
    counter, no call changes what is stored under it.  Over every
    history from deployment the table holds a record, carrying its own
    id, exactly for the ids 1, ..., [twinCount]. *)
Theorem twin_records_are_permanent :
  (forall cs s id, id <= twinCount s ->
     encryptedOrganTwins (run cs s) !! id = encryptedOrganTwins s !! id /\
     twinOf (run cs s) id = twinOf s id) /\
  (forall cs id, let s := run cs initialStorage in
     (1 <= id <= twinCount s ->
        exists m, encryptedOrganTwins s !! id = Some m /\ twinId m = id) /\
     (~ 1 <= id <= twinCount s -> encryptedOrganTwins s !! id = None)).
Proof.
  split.
  - intros cs s id Hle. pose proof (run_keeps_twin cs s id Hle) as Hkeep.
    split; [exact Hkeep |]. unfold twinOf, mget. by rewrite Hkeep.
  - intros cs id s.
    destruct (run_twin_table cs initialStorage) as [Hin Hout].
    + cbn. lia.
    + cbn. intros id' Hid'. lia.
    + intros id' _. cbn. apply lookup_empty.
    + split; [apply Hin | apply Hout].
Qed.

Lemma transact_result_shape (c : Call) (s : Storage) :
  0 <= twinCount s ->
  resultOf s 0 = zeroSimulationResult ->
  (forall id, resultOf s id = zeroSimulationResult \/
     resultOf s id = mkSimulationResult "Improved cardiac output by 15%"
       "Low risk of arrhythmia" "Reduce dosage by 20% for renal patients" true) ->
  resultOf (transact c s) 0 = zeroSimulationResult /\
  (forall id, resultOf (transact c s) id = zeroSimulationResult \/
     resultOf (transact c s) id = mkSimulationResult "Improved cardiac output by 15%"
       "Low risk of arrhythmia" "Reduce dosage by 20% for renal patients" true).
Proof.
  intros Hpos Hzero Hshape. unfold resultOf in *.
  destruct (transact_results c s)
    as [-> | [(_ & ->) | (r & cl & pf & data & _ & _ & Hid & _ & ->)]].
  - by split.
  - split; [rewrite mget_insert_ne by lia; exact Hzero |].
    intros id. destruct (decide (twinCount s + 1 = id)) as [<- | Hne].
    + left. by rewrite mget_insert_eq.
    + rewrite mget_insert_ne by done. apply Hshape.
  - split; [rewrite mget_insert_ne by done; exact Hzero |].
    intros id. destruct (decide (targetOf s r = id)) as [<- | Hne].
    + right. by rewrite mget_insert_eq.
    + rewrite mget_insert_ne by done. apply Hshape.
Qed.

(** X13. Over every history from deployment, [getSimulationResult]
    returns for every id either three empty texts with [false] or the
    three final texts with [true], never a partly written record; for
    the id 0 it always returns the empty record. *)
Theorem result_records_are_empty_or_final (cs : list Call) (id : Z) :
  let s := run cs initialStorage in
  (getSimulationResult s id = ("", "", "", false) \/
   getSimulationResult s id =
     ("Improved cardiac output by 15%", "Low risk of arrhythmia",
      "Reduce dosage by 20% for renal patients", true)) /\
  getSimulationResult s 0 = ("", "", "", false).
Proof.
  cbn.
  assert (Hgen : forall s,
    0 <= twinCount s ->
    resultOf s 0 = zeroSimulationResult ->
    (forall id, resultOf s id = zeroSimulationResult \/
       resultOf s id = mkSimulationResult "Improved cardiac output by 15%"
         "Low risk of arrhythmia" "Reduce dosage by 20% for renal patients" true) ->
    resultOf (run cs s) 0 = zeroSimulationResult /\
    (forall id, resultOf (run cs s) id = zeroSimulationResult \/
       resultOf (run cs s) id = mkSimulationResult "Improved cardiac output by 15%"
         "Low risk of arrhythmia" "Reduce dosage by 20% for renal patients" true)).
  { induction cs as [| c rest IH]; intros s Hpos Hzero Hshape; cbn; [by split |].
    destruct (transact_result_shape c s Hpos Hzero Hshape) as [Hzero' Hshape'].
    apply IH; [| exact Hzero' | exact Hshape'].
    pose proof (transact_twinCount c s). lia. }
  destruct (Hgen initialStorage) as [Hzero Hshape].
  - cbn. lia.
  - unfold resultOf. cbn. apply mget_empty.
  - intros id'. left. unfold resultOf. cbn. apply mget_empty.
  - unfold getSimulationResult. rewrite Hzero.
    split; [| reflexivity].
    destruct (Hshape id) as [-> | ->]; [by left | by right].
Qed.

(** What one transaction does to the log of decryption requests. *)
Lemma transact_requests (c : Call) (s : Storage) :
  decryptionRequests (transact c s) = decryptionRequests s \/
  (exists req,
     decryptionRequests (transact c s) = decryptionRequests s ++ [req] /\
     wellShaped req /\
     reqId req = FHE_nextRequestId (decryptionRequests s)).
Proof.
  unfold transact. destruct c as [o p g ts | id d a | id p | r cl pf | o | r cl pf]; cbn.
  - rewrite createEncryptedTwin_outcome. left.
    by destruct (twinCount s + 1 <=? MAX_UINT256).
  - rewrite requestDrugSimulation_outcome.
    destruct (id <=? twinCount s); [| by left].
    destruct (FHE_requestCheck _ _); [by left |]. right. by eexists.
  - rewrite requestSurgerySimulation_outcome.
    destruct (id <=? twinCount s); [| by left].
    destruct (FHE_requestCheck _ _); [by left |]. right. by eexists.
  - left.
    destruct (processSimulationResult r cl pf s) as [[] s' | e s'] eqn:Hout; [| done].
    apply processSimulationResult_done in Hout as (_ & _ & data & organType & _ & ->).
    by destruct (completedStorage_rest (targetOf s r) data organType s) as (_ & _ & ->).
  - rewrite requestOrganTypeCountDecryption_outcome.
    destruct (FHE_isInitialized _); [| by left].
    destruct (FHE_requestCheck _ _); [by left |]. right. by eexists.
  - rewrite decryptOrganTypeCount_outcome. left.
    destruct (findOrganType _ _); [| done].
    destruct (FHE_signaturesValid _ _ _ _); [| done].
    by destruct (abi_decode_uint32 cl).
Qed.

(** X10. The log of decryption requests only grows, by at most one entry
    per transaction; over every history from deployment each logged
    simulation request carries exactly four handles and each logged
    count request exactly one. *)
Theorem request_log_is_append_only_and_well_shaped :
  (forall cs s, decryptionRequests s `prefix_of` decryptionRequests (run cs s)) /\
  (forall c s,
     (length (decryptionRequests (transact c s)) <= S (length (decryptionRequests s)))%nat) /\
  (forall cs, Forall wellShaped (decryptionRequests (run cs initialStorage))).
Proof.
  split; [| split].
  - intros cs. induction cs as [| c rest IH]; intros s; cbn; [done |].
    etransitivity; [| apply IH].
    destruct (transact_requests c s) as [-> | (req & -> & _)]; [done |].
    by apply prefix_app_r.
  - intros c s.
    destruct (transact_requests c s) as [-> | (req & -> & _)]; [lia |].
    rewrite length_app. cbn. lia.
  - intros cs.
    assert (Hgen : forall s, Forall wellShaped (decryptionRequests s) ->
                             Forall wellShaped (decryptionRequests (run cs s))).
    { induction cs as [| c rest IH]; intros s Hs; cbn; [exact Hs |].
      apply IH.
      destruct (transact_requests c s) as [-> | (req & -> & Hreq & _)]; [exact Hs |].
      apply Forall_app. split; [exact Hs | by constructor]. }
    apply Hgen. cbn. constructor.
Qed.

(** X11. When a surgery simulation is requested for a twin whose drug
    simulation is still pending, the stored parameters of the twin are
    replaced by the surgery's, while the logged drug request keeps the
    payload captured when it was issued: the twin's three handles and
    the drug compound.  The dosage handle is never part of a payload. *)
Theorem second_request_overwrites_parameters_not_payload
    (id drug dosage procedure : Z) (s s1 s2 : Storage) :
  requestDrugSimulation id drug dosage s = Done tt s1 ->
  requestSurgerySimulation id procedure s1 = Done tt s2 ->
  paramsOf s1 id = mkSimulationParams drug dosage (FHE_asEuint32 0) /\
  paramsOf s2 id = mkSimulationParams (FHE_asEuint32 0) (FHE_asEuint32 0) procedure /\
  decryptionRequests s2 =
    decryptionRequests s ++
    [mkRequest (FHE_nextRequestId (decryptionRequests s))
       [encryptedOrganType (twinOf s id); encryptedPhysioData (twinOf s id);
        encryptedGeneticMarkers (twinOf s id); drug]
       processSimulationResult_selector;
     mkRequest (FHE_nextRequestId (decryptionRequests s1))
       [encryptedOrganType (twinOf s id); encryptedPhysioData (twinOf s id);
        encryptedGeneticMarkers (twinOf s id); procedure]
       processSimulationResult_selector] /\
  targetOf s2 (FHE_nextRequestId (decryptionRequests s1)) = id /\
  (FHE_nextRequestId (decryptionRequests s1) <> FHE_nextRequestId (decryptionRequests s) ->
   targetOf s2 (FHE_nextRequestId (decryptionRequests s)) = id).
Proof.
  intros Hdrug Hsurgery.
  rewrite requestDrugSimulation_outcome in Hdrug.
  destruct (id <=? twinCount s) eqn:Hle; [| discriminate].
  destruct (FHE_requestCheck _ _); [discriminate |]. injection Hdrug as <-.
  rewrite requestSurgerySimulation_outcome in Hsurgery. cbn in Hsurgery.
  rewrite Hle in Hsurgery.
  destruct (FHE_requestCheck _ _); [discriminate |]. injection Hsurgery as <-.
  unfold paramsOf, targetOf, twinOf. cbn.
  rewrite !mget_insert_eq, <- app_assoc. cbn.
  repeat split; try reflexivity.
  intros Hne. rewrite mget_insert_ne by done. apply mget_insert_eq.
Qed.

(** X12. A simulation requested for an unrevealed twin is completed by
    the callback for the identifier the oracle returned: given a valid
    proof and cleartexts that decode to a non-empty array whose first
    element is a category not counted before, the callback succeeds and
    the twin's result is revealed with the three final texts. *)
Theorem request_then_callback_reveals
    (id drug dosage : Z) (cleartexts proof : list byte) (data : list string)
    (organType : string) (s s1 : Storage) :
  id <> 0 ->
  isRevealed (resultOf s id) = false ->
  FHE_isInitialized (counterOf s organType) = false ->
  requestDrugSimulation id drug dosage s = Done tt s1 ->
  FHE_signaturesValid (decryptionRequests s1)
    (FHE_nextRequestId (decryptionRequests s)) cleartexts proof = true ->
  abi_decode_strings cleartexts = Some data ->
  data !! 0%nat = Some organType ->
  exists s2,
    processSimulationResult (FHE_nextRequestId (decryptionRequests s)) cleartexts proof s1
      = Done tt s2 /\
    getSimulationResult s2 id =
      ("Improved cardiac output by 15%", "Low risk of arrhythmia",
       "Reduce dosage by 20% for renal patients", true) /\
    counterOf s2 organType = FHE_add (FHE_asEuint32 0) (FHE_asEuint32 1).
Proof.
  intros Hid Hrev Hfresh Hreq Hsig Hdec Hhead.
  rewrite requestDrugSimulation_outcome in Hreq.
  destruct (id <=? twinCount s); [| discriminate].
  destruct (FHE_requestCheck _ _); [discriminate |]. injection Hreq as <-.
  set (s1 := mkStorage _ _ _ _ _ _ _ _ _) in *.
  assert (Htarget : targetOf s1 (FHE_nextRequestId (decryptionRequests s)) = id).
  { unfold targetOf, s1. cbn. apply mget_insert_eq. }
  eexists. split; [| split].
  - apply (processSimulationResult_succeeds _ _ _ _ data organType);
      rewrite ?Htarget; auto.
  - rewrite Htarget. unfold getSimulationResult, resultOf.
    rewrite completedStorage_results, mget_insert_eq. reflexivity.
  - unfold counterOf at 1. rewrite completedStorage_counters, mget_insert_eq.
    change (counterOf s1 organType) with (counterOf s organType).
    by rewrite Hfresh.
Qed.

(** X14. The id check of the request functions lets the twin id 0
    through on every storage whose counter is not negative: neither
    function reverts with "Invalid twin ID".  When the library refuses
    the payload built from the record under key 0, the call reverts with
    the library's error after the parameters of twin 0 were written, and
    the transaction is rolled back. *)
Theorem request_for_twin_zero_passes_id_check (a b : Z) (s : Storage) :
  0 <= twinCount s ->
  (forall s', requestDrugSimulation 0 a b s <> Reverted InvalidTwin s') /\
  (forall s', requestSurgerySimulation 0 a s <> Reverted InvalidTwin s') /\
  (forall e,
     FHE_requestCheck (decryptionRequests s) (simulationPayload s 0 a) = Some e ->
     requestDrugSimulation 0 a b s =
       Reverted (LibraryRevert e)
         (set_encryptedSimulations
            (<[0 := mkSimulationParams a b (FHE_asEuint32 0)]> (encryptedSimulations s)) s) /\
     requestSurgerySimulation 0 a s =
       Reverted (LibraryRevert e)
         (set_encryptedSimulations
            (<[0 := mkSimulationParams (FHE_asEuint32 0) (FHE_asEuint32 0) a]>
               (encryptedSimulations s)) s) /\
     transact (RequestDrugSimulation 0 a b) s = s /\
     transact (RequestSurgerySimulation 0 a) s = s).
Proof.
  intros Hpos%Z.leb_le. unfold transact. cbn.
  rewrite requestDrugSimulation_outcome, requestSurgerySimulation_outcome, Hpos.
  split; [| split].
  - intros s'. by destruct (FHE_requestCheck _ _).
  - intros s'. by destruct (FHE_requestCheck _ _).
  - intros e ->. auto.
Qed.

(** X15. The simulation callback does not check which kind of request an
    identifier belongs to: the identifier of a count-decryption request
    is accepted by [processSimulationResult], which, when the first
    cleartext is a category not counted before, reveals the result
    record stored under the category key as if it were a twin id and
    starts the counter of the first cleartext. *)
Theorem count_request_id_is_accepted_by_simulation_callback
    (category : string) (cleartexts proof : list byte) (data : list string)
    (organType : string) (s s1 : Storage) :
  requestOrganTypeCountDecryption category s = Done tt s1 ->
  keccak256_packed category <> 0 ->
  isRevealed (resultOf s (keccak256_packed category)) = false ->
  FHE_isInitialized (counterOf s organType) = false ->
  FHE_signaturesValid (decryptionRequests s1)
    (FHE_nextRequestId (decryptionRequests s)) cleartexts proof = true ->
  abi_decode_strings cleartexts = Some data ->
  data !! 0%nat = Some organType ->
  exists s2,
    processSimulationResult (FHE_nextRequestId (decryptionRequests s)) cleartexts proof s1
      = Done tt s2 /\
    isRevealed (resultOf s2 (keccak256_packed category)) = true /\
    counterOf s2 organType = FHE_add (FHE_asEuint32 0) (FHE_asEuint32 1).
Proof.
  intros Hreq Hkey Hrev Hfresh Hsig Hdec Hhead.
  rewrite requestOrganTypeCountDecryption_outcome in Hreq.
  destruct (FHE_isInitialized (counterOf s category)); [| discriminate].
  destruct (FHE_requestCheck _ _); [discriminate |].
  injection Hreq as <-.
  set (s1 := mkStorage _ _ _ _ _ _ _ _ _) in *.
  assert (Htarget : targetOf s1 (FHE_nextRequestId (decryptionRequests s))
                    = keccak256_packed category).
  { unfold targetOf, s1. cbn. apply mget_insert_eq. }
  eexists. split; [| split].
  - apply (processSimulationResult_succeeds _ _ _ _ data organType);
      rewrite ?Htarget; auto.
  - rewrite Htarget. unfold resultOf.
    rewrite completedStorage_results, mget_insert_eq. reflexivity.
  - unfold counterOf at 1. rewrite completedStorage_counters, mget_insert_eq.
    change (counterOf s1 organType) with (counterOf s organType).
    by rewrite Hfresh.
Qed.

(** X16. [createEncryptedTwin] succeeds exactly when the allocation
    counter is below the top of [uint256], and otherwise panics (0x11)
    without writing.  A successful call leaves every other twin and
    result record, the simulation parameters, the counters, the tracker
    and the request log untouched. *)
Theorem twin_creation_frame (o p g timestamp : Z) (s : Storage) :
  (MAX_UINT256 <= twinCount s ->
     createEncryptedTwin o p g timestamp s = Reverted (Panic 17) s) /\
  (forall s', createEncryptedTwin o p g timestamp s = Done tt s' ->
     twinCount s < MAX_UINT256 /\
     (forall id, id <> twinCount s + 1 ->
        twinOf s' id = twinOf s id /\ resultOf s' id = resultOf s id) /\
     encryptedSimulations s' = encryptedSimulations s /\
     encryptedOrganTypeCount s' = encryptedOrganTypeCount s /\
     organTypeList s' = organTypeList s /\
     requestToTwinId s' = requestToTwinId s /\
     decryptionRequests s' = decryptionRequests s).
Proof.
  rewrite createEncryptedTwin_outcome. split.
  - intros Hmax.
    assert (Hgt : (twinCount s + 1 <=? MAX_UINT256) = false) by (apply Z.leb_gt; lia).
    by rewrite Hgt.
  - intros s'. destruct (twinCount s + 1 <=? MAX_UINT256) eqn:Hle; [| discriminate].
    intros [= <-]. apply Z.leb_le in Hle. cbn.
    split; [lia |]. split; [| auto].
    intros id Hne. unfold twinOf, resultOf. cbn.
    by rewrite !mget_insert_ne.
Qed.

End Records.

(** * The properties on the reference platforms *)

(** C1 (as stated, refuted). The request 0 is resolved by a successful
    callback; the same callback presented again fails with
    [AlreadyRevealed], not with [UnknownRequest]. *)
Lemma replayed_callback_is_not_unknown_request :
  processSimulationResult 0 Clear.heart Clear.okProof Clear.requested
    = Done tt Clear.revealed /\
  processSimulationResult 0 Clear.heart Clear.okProof Clear.revealed
    = Reverted AlreadyRevealed Clear.revealed /\
  processSimulationResult 0 Clear.heart Clear.okProof Clear.revealed
    <> Reverted UnknownRequest Clear.revealed.
Proof.
  split; [vm_compute; reflexivity | split; [vm_compute; reflexivity |]].
  vm_compute. discriminate.
Qed.

Lemma unregistered_or_replayed_callback_rejected_witness :
  (neverRegisters 5 [CreateEncryptedTwin 11 12 13 1000] initialStorage = true /\
   processSimulationResult 5 Clear.heart Clear.okProof Clear.created
     = Reverted UnknownRequest Clear.created) /\
  (processSimulationResult 0 Clear.heart Clear.okProof Clear.requested
     = Done tt Clear.revealed /\
   neverRegisters 0 Clear.later Clear.revealed = true /\
   neverAllocates (targetOf Clear.requested 0) Clear.later Clear.revealed = true /\
   processSimulationResult 0 Clear.heart Clear.okProof (run Clear.later Clear.revealed)
     = Reverted AlreadyRevealed (run Clear.later Clear.revealed)).
Proof.
  destruct (unregistered_or_replayed_callback_rejected 0 Clear.heart Clear.okProof)
    as [_ Hreplay].
  destruct (unregistered_or_replayed_callback_rejected 5 Clear.heart Clear.okProof)
    as [Hunknown _].
  assert (H1 : neverRegisters 5 [CreateEncryptedTwin 11 12 13 1000] initialStorage = true)
    by (vm_compute; reflexivity).
  assert (H2 : processSimulationResult 0 Clear.heart Clear.okProof Clear.requested
               = Done tt Clear.revealed) by (vm_compute; reflexivity).
  assert (H3 : neverRegisters 0 Clear.later Clear.revealed = true)
    by (vm_compute; reflexivity).
  assert (H4 : neverAllocates (targetOf Clear.requested 0) Clear.later Clear.revealed = true)
    by (vm_compute; reflexivity).
  split.
  - split; [exact H1 | exact (proj1 (Hunknown _ H1))].
  - split; [exact H2 | split; [exact H3 | split; [exact H4 |]]].
    exact (proj1 (Hreplay _ _ _ _ _ H2 H3 H4)).
Defined.

Lemma revealed_flag_is_write_once_witness :
  revealCount 1 [CreateEncryptedTwin 11 12 13 1000; RequestDrugSimulation 1 21 22]
    initialStorage = O /\
  getSimulationResult Clear.requested 1 = ("", "", "", false) /\
  reveals (ProcessSimulationResult 0 Clear.heart Clear.okProof) Clear.requested 1 = true /\
  isRevealed (resultOf Clear.revealed 1) = true /\
  neverAllocates 1 Clear.later Clear.revealed = true /\
  isRevealed (resultOf (run Clear.later Clear.revealed) 1) = true /\
  (revealCount 1
     (ProcessSimulationResult 0 Clear.heart Clear.okProof ::
      ProcessSimulationResult 0 Clear.heart Clear.okProof :: Clear.later)
     Clear.requested <= 1)%nat.
Proof.
  destruct (revealed_flag_is_write_once 1) as (_ & Hempty & Hflip & Hkeep & Honce & Halloc).
  assert (H1 : revealCount 1
                 [CreateEncryptedTwin 11 12 13 1000; RequestDrugSimulation 1 21 22]
                 initialStorage = O) by (vm_compute; reflexivity).
  assert (H2 : reveals (ProcessSimulationResult 0 Clear.heart Clear.okProof)
                 Clear.requested 1 = true) by (vm_compute; reflexivity).
  assert (H3 : 1 <= twinCount Clear.revealed) by (vm_compute; discriminate).
  assert (H4 : 1 <= twinCount Clear.requested) by (vm_compute; discriminate).
  split; [exact H1 | split; [exact (Hempty _ H1) | split; [exact H2 |]]].
  split; [exact (proj2 (Hflip _ _ H2)) | split; [exact (Halloc _ _ H3) | split]].
  - exact (Hkeep _ _ (Halloc _ _ H3) (proj2 (Hflip _ _ H2))).
  - exact (Honce _ _ (Halloc _ _ H4)).
Defined.

(** C3 (as stated, refuted). After the successful callback of request 0
    the tracker still maps 0 to twin 1; after the successful count
    callback of request 1 the tracker still maps 1 to the category key. *)
Lemma resolved_request_stays_in_tracker :
  processSimulationResult 0 Clear.heart Clear.okProof Clear.requested
    = Done tt Clear.revealed /\
  requestToTwinId Clear.revealed !! 0 = Some 1 /\
  requestToTwinId Clear.revealed !! 0 <> None /\
  decryptOrganTypeCount 1 [x01] Clear.okProof Clear.counted = Done tt Clear.counted /\
  requestToTwinId Clear.counted !! 1 = Some (Clear.hash "heart").
Proof.
  split; [vm_compute; reflexivity | split; [vm_compute; reflexivity | split]].
  - vm_compute. discriminate.
  - split; vm_compute; reflexivity.
Qed.

Lemma successful_callback_keeps_tracker_entry_witness :
  (processSimulationResult 0 Clear.heart Clear.okProof Clear.requested
     = Done tt Clear.revealed \/
   decryptOrganTypeCount 0 Clear.heart Clear.okProof Clear.requested
     = Done tt Clear.revealed) /\
  requestToTwinId Clear.revealed = requestToTwinId Clear.requested /\
  targetOf Clear.revealed 0 = targetOf Clear.requested 0.
Proof.
  assert (H : processSimulationResult 0 Clear.heart Clear.okProof Clear.requested
                = Done tt Clear.revealed \/
              decryptOrganTypeCount 0 Clear.heart Clear.okProof Clear.requested
                = Done tt Clear.revealed) by (left; vm_compute; reflexivity).
  destruct (successful_callback_keeps_tracker_entry _ _ _ _ _ H) as (Ht & Hid & _).
  split; [exact H | split; [exact Ht | exact Hid]].
Defined.

Lemma failed_validation_mutates_nothing_witness :
  ValidationFailure Clear.requested 0 Clear.heart [] InvalidProof /\
  processSimulationResult 0 Clear.heart [] Clear.requested
    = Reverted InvalidProof Clear.requested /\
  transact (ProcessSimulationResult 0 Clear.heart []) Clear.requested = Clear.requested.
Proof.
  assert (H : ValidationFailure Clear.requested 0 Clear.heart [] InvalidProof).
  { apply invalid_proof; vm_compute; [discriminate | reflexivity | reflexivity]. }
  destruct (failed_validation_mutates_nothing _ _ _ _ _ H) as (Hout & Htx & _).
  split; [exact H | split; [exact Hout | exact Htx]].
Defined.

Lemma blind_counter_counts_witness :
  FHE_isInitialized (counterOf initialStorage "liver") = false /\
  (0 < 3)%nat /\
  Clear.plain (counterOf (blindIncrements 3 "liver" initialStorage) "liver") = 3 /\
  (forall other, other <> "liver" ->
     counterOf (blindIncrements 3 "liver" initialStorage) other
     = counterOf initialStorage other).
Proof.
  assert (H0 : Clear.plain (FHE_asEuint32 0) = 0) by reflexivity.
  assert (H1 : forall h, Clear.plain (FHE_add h (FHE_asEuint32 1)) = Clear.plain h + 1).
  { intros h. cbn. unfold Clear.add, Clear.plain, Clear.asEuint32. lia. }
  assert (H2 : forall a b, FHE_isInitialized (FHE_add a b) = true).
  { intros a b. cbn. unfold Clear.isInitialized, Clear.add, Clear.plain.
    apply Z.ltb_lt. lia. }
  assert (H3 : FHE_isInitialized (counterOf initialStorage "liver") = false)
    by (vm_compute; reflexivity).
  assert (H4 : (0 < 3)%nat) by lia.
  split; [exact H3 | split; [exact H4 |]].
  exact (blind_counter_counts Clear.plain H0 H1 H2 3%nat "liver" initialStorage H3 H4).
Defined.

Lemma twin_ids_increase_and_records_are_initialised_witness :
  createdIds (events (run Clear.history initialStorage))
    = seqZ 1 (twinCount (run Clear.history initialStorage)) /\
  twinCount Clear.created < MAX_UINT256 /\
  exists s', createEncryptedTwin 31 32 33 2000 Clear.created = Done tt s' /\
    twinCount s' = 2 /\
    encryptedOrganTwins s' !! 2 = Some (mkOrganModel 2 31 32 33 2000) /\
    decryptedResults s' !! 2 = Some (mkSimulationResult "" "" "" false).
Proof.
  destruct (twin_ids_increase_and_records_are_initialised (P := Clear.platform))
    as [Hids Hcreate].
  assert (H : twinCount Clear.created < MAX_UINT256) by (vm_compute; reflexivity).
  split; [| split; [exact H |]].
  - exact (proj1 (Hids Clear.history)).
  - destruct (Hcreate Clear.created 31 32 33 2000 H) as (s' & Hdone & Hcount & Htwin & Hres & _).
    exists s'. split; [exact Hdone | split; [exact Hcount | split; [exact Htwin | exact Hres]]].
Defined.

(** C5 (as stated, refuted). Twin 1 is allocated, with handles the
    library has no permission for; the drug simulation request for it
    passes the id check and is refused by the library, so it does not
    succeed. *)
Lemma allocated_twin_request_is_refused :
  1 <= 1 <= twinCount Clear.bare /\
  requestDrugSimulation 1 21 22 Clear.bare =
    Reverted (LibraryRevert SenderNotAllowed)
      (set_encryptedSimulations
         (<[1 := mkSimulationParams 21 22 (FHE_asEuint32 0)]>
            (encryptedSimulations Clear.bare)) Clear.bare) /\
  succeeds (RequestDrugSimulation 1 21 22) Clear.bare = false /\
  succeeds (RequestSurgerySimulation 1 21) Clear.bare = false.
Proof.
  split; [vm_compute; split; discriminate |].
  split; [vm_compute; reflexivity | split; vm_compute; reflexivity].
Qed.

Lemma simulation_request_id_check_then_library_witness :
  (twinCount Clear.created < 2 /\
   requestDrugSimulation 2 21 22 Clear.created = Reverted InvalidTwin Clear.created) /\
  (1 <= 1 <= twinCount Clear.created /\
   FHE_requestCheck (decryptionRequests Clear.created)
     (simulationPayload Clear.created 1 21) = None /\
   succeeds (RequestDrugSimulation 1 21 22) Clear.created = true) /\
  (1 <= 1 <= twinCount Clear.bare /\
   FHE_requestCheck (decryptionRequests Clear.bare)
     (simulationPayload Clear.bare 1 21) = Some SenderNotAllowed /\
   transact (RequestDrugSimulation 1 21 22) Clear.bare = Clear.bare).
Proof.
  destruct (simulation_request_id_check_then_library Clear.created 2 21 22) as [Habove _].
  destruct (simulation_request_id_check_then_library Clear.created 1 21 22) as [_ Hwithin].
  destruct (simulation_request_id_check_then_library Clear.bare 1 21 22) as [_ Hbare].
  assert (H1 : twinCount Clear.created < 2) by (vm_compute; reflexivity).
  assert (H2 : 1 <= 1 <= twinCount Clear.created) by (vm_compute; split; discriminate).
  assert (H3 : FHE_requestCheck (decryptionRequests Clear.created)
                 (simulationPayload Clear.created 1 21) = None)
    by (vm_compute; reflexivity).
  assert (H4 : 1 <= 1 <= twinCount Clear.bare) by (vm_compute; split; discriminate).
  assert (H5 : FHE_requestCheck (decryptionRequests Clear.bare)
                 (simulationPayload Clear.bare 1 21) = Some SenderNotAllowed)
    by (vm_compute; reflexivity).
  split; [split; [exact H1 | exact (proj1 (Habove H1))] |].
  split.
  - split; [exact H2 | split; [exact H3 |]].
    exact (proj1 (proj1 (Hwithin H2) H3)).
  - split; [exact H4 | split; [exact H5 |]].
    exact (proj1 (proj2 (proj2 (proj2 (Hbare H4) SenderNotAllowed H5)))).
Defined.

(** The reference check refuses an identifier that is already logged. *)
Lemma requestCheckFor_used (id : Z) (log : list DecryptionRequest) (cts : list Z) :
  id ∈ reqId <$> log -> Clear.requestCheckFor id log cts <> None.
Proof.
  intros Hin. unfold Clear.requestCheckFor.
  destruct (existsb (fun h => h =? 0) cts); [discriminate |].
  assert (Hex : existsb (fun r => reqId r =? id) log = true).
  { apply list_elem_of_fmap in Hin as (r & -> & Hr).
    apply existsb_exists. exists r. split; [by apply list_elem_of_In | apply Z.eqb_refl]. }
  rewrite Hex. discriminate.
Defined.


Lemma count_decryption_is_read_only_witness :
  decryptOrganTypeCount 1 [x01] Clear.okProof Clear.counted = Done tt Clear.counted /\
  encryptedOrganTypeCount Clear.counted = encryptedOrganTypeCount Clear.counted.
Proof.
  assert (H : decryptOrganTypeCount 1 [x01] Clear.okProof Clear.counted
              = Done tt Clear.counted) by (vm_compute; reflexivity).
  destruct (count_decryption_is_read_only _ _ _ _ _ H) as (_ & Hcounters & _).
  split; [exact H | exact Hcounters].
Defined.

Lemma stored_result_texts_are_constant_witness :
  processSimulationResult 0 Clear.heart Clear.okProof Clear.requested
    = Done tt Clear.revealed /\
  getSimulationResult Clear.revealed (targetOf Clear.requested 0) =
  ("Improved cardiac output by 15%", "Low risk of arrhythmia",
   "Reduce dosage by 20% for renal patients", true).
Proof.
  assert (H : processSimulationResult 0 Clear.heart Clear.okProof Clear.requested
              = Done tt Clear.revealed) by (vm_compute; reflexivity).
  split; [exact H | exact (stored_result_texts_are_constant _ _ _ _ _ H)].
Defined.

Lemma callback_without_category_reverts_witness :
  targetOf Clear.requested 0 <> 0 /\
  isRevealed (resultOf Clear.requested (targetOf Clear.requested 0)) = false /\
  FHE_signaturesValid (decryptionRequests Clear.requested) 0 [] Clear.okProof = true /\
  abi_decode_strings [] = Some [] /\
  processSimulationResult 0 [] Clear.okProof Clear.requested =
    Reverted (Panic 50) (resultWritten (targetOf Clear.requested 0) [] Clear.requested) /\
  transact (ProcessSimulationResult 0 [] Clear.okProof) Clear.requested = Clear.requested.
Proof.
  assert (H1 : targetOf Clear.requested 0 <> 0) by (vm_compute; discriminate).
  assert (H2 : isRevealed (resultOf Clear.requested (targetOf Clear.requested 0)) = false)
    by (vm_compute; reflexivity).
  assert (H3 : FHE_signaturesValid (decryptionRequests Clear.requested) 0 [] Clear.okProof
               = true) by (vm_compute; reflexivity).
  assert (H4 : abi_decode_strings (Platform := Clear.platform) [] = Some [])
    by reflexivity.
  destruct (callback_without_category_reverts 0 [] Clear.okProof Clear.requested H1 H2 H3)
    as (Hempty & _ & Htx).
  split; [exact H1 | split; [exact H2 | split; [exact H3 | split; [exact H4 |]]]].
  split; [exact (proj1 (Hempty H4)) | exact (Htx (or_introl H4))].
Defined.

Lemma successful_callback_effects_witness :
  processSimulationResult 0 Clear.heart Clear.okProof Clear.requested
    = Done tt Clear.revealed /\
  exists data organType,
    abi_decode_strings Clear.heart = Some data /\
    data !! 0%nat = Some organType /\
    counterOf Clear.revealed organType =
      FHE_add (if FHE_isInitialized (counterOf Clear.requested organType)
               then counterOf Clear.requested organType else FHE_asEuint32 0)
              (FHE_asEuint32 1) /\
    requestToTwinId Clear.revealed = requestToTwinId Clear.requested.
Proof.
  assert (H : processSimulationResult 0 Clear.heart Clear.okProof Clear.requested
              = Done tt Clear.revealed) by (vm_compute; reflexivity).
  split; [exact H |].
  destruct (successful_callback_effects _ _ _ _ _ H)
    as (data & organType & Hdec & Hhead & Hcount & _ & _ & _ & _ & _ & _ & _ & Htracker & _).
  exists data, organType.
  split; [exact Hdec | split; [exact Hhead | split; [exact Hcount | exact Htracker]]].
Defined.

Lemma clear_zero_uninitialized : FHE_isInitialized (Platform := Clear.platform) 0 = false.
Proof. reflexivity. Defined.

Lemma clear_add_initialized (a b : Z) :
  FHE_isInitialized (Platform := Clear.platform) (FHE_add a b) = true.
Proof.
  cbn. unfold Clear.isInitialized, Clear.add, Clear.plain. apply Z.ltb_lt. lia.
Defined.

Lemma clear_plain_zero : Clear.plain (FHE_asEuint32 (Platform := Clear.platform) 0) = 0.
Proof. reflexivity. Defined.

Lemma clear_plain_add_one (h : Z) :
  Clear.plain (FHE_add (Platform := Clear.platform) h (FHE_asEuint32 1)) = Clear.plain h + 1.
Proof. cbn. unfold Clear.add, Clear.plain, Clear.asEuint32. lia. Defined.

Lemma callbacks_are_counted_per_category_witness :
  (0 < completedCount "liver" Clear.twoLivers initialStorage)%nat /\
  FHE_isInitialized (counterOf (run Clear.twoLivers initialStorage) "liver") = true /\
  Clear.plain (counterOf (run Clear.twoLivers initialStorage) "liver")
    = Z.of_nat (completedCount "liver" Clear.twoLivers initialStorage) /\
  completedCount "liver" Clear.twoLivers initialStorage = 2%nat.
Proof.
  assert (H : (0 < completedCount "liver" Clear.twoLivers initialStorage)%nat)
    by (vm_compute; lia).
  destruct (callbacks_are_counted_per_category clear_zero_uninitialized
              clear_add_initialized Clear.plain clear_plain_zero clear_plain_add_one
              "liver" Clear.twoLivers) as [_ Hpos].
  destruct (Hpos H) as [Hinit Hplain].
  split; [exact H | split; [exact Hinit | split; [exact Hplain |]]].
  vm_compute. reflexivity.
Defined.

Lemma known_categories_are_listed_once_witness :
  NoDup (organTypeList (run Clear.twoLivers initialStorage)) /\
  ("liver" ∈ organTypeList (run Clear.twoLivers initialStorage) <->
   FHE_isInitialized (counterOf (run Clear.twoLivers initialStorage) "liver") = true) /\
  organTypeList (run Clear.twoLivers initialStorage) = ["liver"].
Proof.
  destruct (known_categories_are_listed_once clear_zero_uninitialized
              clear_add_initialized Clear.twoLivers) as [Hnodup Hlisted].
  split; [exact Hnodup | split; [exact (Hlisted "liver") |]].
  vm_compute. reflexivity.
Defined.

Lemma uncounted_category_cannot_be_requested_witness :
  completedCount "liver" Clear.history initialStorage = O /\
  requestOrganTypeCountDecryption "liver" (run Clear.history initialStorage)
    = Reverted UnknownCategory (run Clear.history initialStorage).
Proof.
  assert (H : completedCount "liver" Clear.history initialStorage = O)
    by (vm_compute; reflexivity).
  split; [exact H |].
  exact (proj1 (uncounted_category_cannot_be_requested clear_zero_uninitialized
                  "liver" Clear.history H)).
Defined.

Lemma count_request_round_trip_witness :
  "heart" ∈ organTypeList Clear.revealed /\
  requestOrganTypeCountDecryption "heart" Clear.revealed = Done tt Clear.counted /\
  targetOf Clear.counted (FHE_nextRequestId (decryptionRequests Clear.revealed))
    = keccak256_packed "heart" /\
  decryptOrganTypeCount (FHE_nextRequestId (decryptionRequests Clear.revealed))
    [x01] Clear.okProof Clear.counted = Done tt Clear.counted.
Proof.
  assert (H1 : "heart" ∈ organTypeList Clear.revealed).
  { vm_compute. apply list_elem_of_here. }
  assert (H2 : requestOrganTypeCountDecryption "heart" Clear.revealed = Done tt Clear.counted)
    by (vm_compute; reflexivity).
  assert (H3 : FHE_signaturesValid (decryptionRequests Clear.counted)
                 (FHE_nextRequestId (decryptionRequests Clear.revealed))
                 [x01] Clear.okProof = true) by (vm_compute; reflexivity).
  assert (H4 : abi_decode_uint32 (Platform := Clear.platform) [x01] = Some 1)
    by (vm_compute; reflexivity).
  destruct (count_request_round_trip "heart" [x01] Clear.okProof 1
              Clear.revealed Clear.counted H1 H2 H3 H4) as [Htarget Hdone].
  split; [exact H1 | split; [exact H2 | split; [exact Htarget | exact Hdone]]].
Defined.

Lemma organ_type_lookup_finds_first_match_witness :
  getOrganTypeFromHash (Clear.hash "heart") Clear.revealed = Done "heart" Clear.revealed /\
  Forall (fun o => keccak256_packed o <> 1) (organTypeList Clear.revealed) /\
  getOrganTypeFromHash 1 Clear.revealed = Reverted UnknownCategory Clear.revealed.
Proof.
  destruct (organ_type_lookup_finds_first_match (Clear.hash "heart") Clear.revealed)
    as [Hfound _].
  destruct (organ_type_lookup_finds_first_match 1 Clear.revealed) as [_ Hmissing].
  assert (H : Forall (fun o => keccak256_packed o <> 1) (organTypeList Clear.revealed)).
  { vm_compute. repeat constructor. discriminate. }
  split; [| split; [exact H |]].
  - apply Hfound. split; [reflexivity |].
    exists [], []. split; [vm_compute; reflexivity | split; [reflexivity | constructor]].
  - apply Hmissing. by repeat split.
Defined.

Lemma count_callback_for_unlisted_target_reverts_witness :
  Forall (fun o => keccak256_packed o <> targetOf Clear.revealed 0)
    (organTypeList Clear.revealed) /\
  decryptOrganTypeCount 0 [x01] Clear.okProof Clear.revealed
    = Reverted UnknownCategory Clear.revealed.
Proof.
  assert (H : Forall (fun o => keccak256_packed o <> targetOf Clear.revealed 0)
                (organTypeList Clear.revealed)).
  { vm_compute. repeat constructor. discriminate. }
  split; [exact H |].
  exact (count_callback_for_unlisted_target_reverts 0 [x01] Clear.okProof Clear.revealed H).
Defined.

Lemma twin_records_are_permanent_witness :
  1 <= twinCount Clear.created /\
  twinOf (run Clear.later Clear.created) 1 = twinOf Clear.created 1 /\
  (1 <= 1 <= twinCount (run Clear.history initialStorage) ->
   exists m, encryptedOrganTwins (run Clear.history initialStorage) !! 1 = Some m /\
             twinId m = 1) /\
  (~ 1 <= 2 <= twinCount (run Clear.history initialStorage) ->
   encryptedOrganTwins (run Clear.history initialStorage) !! 2 = None).
Proof.
  destruct (twin_records_are_permanent (P := Clear.platform)) as [Hkeep Htable].
  assert (H : 1 <= twinCount Clear.created) by (vm_compute; discriminate).
  split; [exact H | split; [exact (proj2 (Hkeep Clear.later Clear.created 1 H)) |]].
  split; [exact (proj1 (Htable Clear.history 1)) | exact (proj2 (Htable Clear.history 2))].
Defined.

Lemma second_request_overwrites_parameters_not_payload_witness :
  requestDrugSimulation 1 21 22 Clear.created = Done tt Clear.requested /\
  requestSurgerySimulation 1 41 Clear.requested = Done tt Clear.requestedTwice /\
  paramsOf Clear.requestedTwice 1
    = mkSimulationParams (FHE_asEuint32 0) (FHE_asEuint32 0) 41 /\
  decryptionRequests Clear.requestedTwice =
    decryptionRequests Clear.created ++
    [mkRequest (FHE_nextRequestId (decryptionRequests Clear.created))
       [encryptedOrganType (twinOf Clear.created 1);
        encryptedPhysioData (twinOf Clear.created 1);
        encryptedGeneticMarkers (twinOf Clear.created 1); 21]
       processSimulationResult_selector;
     mkRequest (FHE_nextRequestId (decryptionRequests Clear.requested))
       [encryptedOrganType (twinOf Clear.created 1);
        encryptedPhysioData (twinOf Clear.created 1);
        encryptedGeneticMarkers (twinOf Clear.created 1); 41]
       processSimulationResult_selector].
Proof.
  assert (H1 : requestDrugSimulation 1 21 22 Clear.created = Done tt Clear.requested)
    by (vm_compute; reflexivity).
  assert (H2 : requestSurgerySimulation 1 41 Clear.requested = Done tt Clear.requestedTwice)
    by (vm_compute; reflexivity).
  destruct (second_request_overwrites_parameters_not_payload 1 21 22 41
              Clear.created Clear.requested Clear.requestedTwice H1 H2)
    as (_ & Hparams & Hlog & _).
  split; [exact H1 | split; [exact H2 | split; [exact Hparams | exact Hlog]]].
Defined.

Lemma request_then_callback_reveals_witness :
  1 <> 0 /\
  isRevealed (resultOf Clear.created 1) = false /\
  FHE_isInitialized (counterOf Clear.created "heart") = false /\
  requestDrugSimulation 1 21 22 Clear.created = Done tt Clear.requested /\
  exists s2,
    processSimulationResult (FHE_nextRequestId (decryptionRequests Clear.created))
      Clear.heart Clear.okProof Clear.requested = Done tt s2 /\
    getSimulationResult s2 1 =
      ("Improved cardiac output by 15%", "Low risk of arrhythmia",
       "Reduce dosage by 20% for renal patients", true).
Proof.
  assert (H1 : 1 <> 0) by lia.
  assert (H2 : isRevealed (resultOf Clear.created 1) = false) by (vm_compute; reflexivity).
  assert (H0 : FHE_isInitialized (counterOf Clear.created "heart") = false)
    by (vm_compute; reflexivity).
  assert (H3 : requestDrugSimulation 1 21 22 Clear.created = Done tt Clear.requested)
    by (vm_compute; reflexivity).
  assert (H4 : FHE_signaturesValid (decryptionRequests Clear.requested)
                 (FHE_nextRequestId (decryptionRequests Clear.created))
                 Clear.heart Clear.okProof = true) by (vm_compute; reflexivity).
  assert (H5 : abi_decode_strings (Platform := Clear.platform) Clear.heart = Some ["heart"])
    by (vm_compute; reflexivity).
  assert (H6 : ["heart"] !! 0%nat = Some "heart") by reflexivity.
  split; [exact H1 | split; [exact H2 | split; [exact H0 | split; [exact H3 |]]]].
  destruct (request_then_callback_reveals 1 21 22 Clear.heart Clear.okProof ["heart"] "heart"
              Clear.created Clear.requested H1 H2 H0 H3 H4 H5 H6) as (s2 & Hdone & Hres & _).
  exists s2. split; [exact Hdone | exact Hres].
Defined.

Lemma request_for_twin_zero_passes_id_check_witness :
  0 <= twinCount initialStorage /\
  FHE_requestCheck (decryptionRequests initialStorage)
    (simulationPayload initialStorage 0 21) = Some SenderNotAllowed /\
  requestDrugSimulation 0 21 22 initialStorage =
    Reverted (LibraryRevert SenderNotAllowed)
      (set_encryptedSimulations
         (<[0 := mkSimulationParams 21 22 (FHE_asEuint32 0)]>
            (encryptedSimulations initialStorage)) initialStorage) /\
  transact (RequestDrugSimulation 0 21 22) initialStorage = initialStorage.
Proof.
  assert (H1 : 0 <= twinCount initialStorage) by (vm_compute; discriminate).
  assert (H2 : FHE_requestCheck (decryptionRequests initialStorage)
                 (simulationPayload initialStorage 0 21) = Some SenderNotAllowed)
    by (vm_compute; reflexivity).
  destruct (request_for_twin_zero_passes_id_check 21 22 initialStorage H1)
    as (_ & _ & Hrefused).
  destruct (Hrefused SenderNotAllowed H2) as (Hdrug & _ & Htx & _).
  split; [exact H1 | split; [exact H2 | split; [exact Hdrug | exact Htx]]].
Defined.

Lemma count_request_id_is_accepted_by_simulation_callback_witness :
  requestOrganTypeCountDecryption "heart" Clear.revealed = Done tt Clear.counted /\
  keccak256_packed "heart" <> 0 /\
  isRevealed (resultOf Clear.revealed (keccak256_packed "heart")) = false /\
  FHE_isInitialized (counterOf Clear.revealed "liver") = false /\
  (exists s2,
     processSimulationResult (FHE_nextRequestId (decryptionRequests Clear.revealed))
       Clear.liver Clear.okProof Clear.counted = Done tt s2 /\
     isRevealed (resultOf s2 (keccak256_packed "heart")) = true) /\
  isRevealed (resultOf Clear.confused (Clear.hash "heart")) = true.
Proof.
  assert (H1 : requestOrganTypeCountDecryption "heart" Clear.revealed = Done tt Clear.counted)
    by (vm_compute; reflexivity).
  assert (H2 : keccak256_packed (Platform := Clear.platform) "heart" <> 0)
    by (vm_compute; discriminate).
  assert (H3 : isRevealed (resultOf Clear.revealed (keccak256_packed "heart")) = false)
    by (vm_compute; reflexivity).
  assert (H0 : FHE_isInitialized (counterOf Clear.revealed "liver") = false)
    by (vm_compute; reflexivity).
  assert (H4 : FHE_signaturesValid (decryptionRequests Clear.counted)
                 (FHE_nextRequestId (decryptionRequests Clear.revealed))
                 Clear.liver Clear.okProof = true) by (vm_compute; reflexivity).
  assert (H5 : abi_decode_strings (Platform := Clear.platform) Clear.liver = Some ["liver"])
    by (vm_compute; reflexivity).
  assert (H6 : ["liver"] !! 0%nat = Some "liver") by reflexivity.
  destruct (count_request_id_is_accepted_by_simulation_callback "heart" Clear.liver
              Clear.okProof ["liver"] "liver" Clear.revealed Clear.counted
              H1 H2 H3 H0 H4 H5 H6) as (s2 & Hdone & Hrev & _).
  split; [exact H1 | split; [exact H2 | split; [exact H3 | split; [exact H0 | split]]]].
  - exists s2. split; [exact Hdone | exact Hrev].
  - vm_compute. reflexivity.
Defined.

Lemma twin_creation_frame_witness :
  MAX_UINT256 <= twinCount Clear.full /\
  createEncryptedTwin 31 32 33 2000 Clear.full = Reverted (Panic 17) Clear.full /\
  createEncryptedTwin 31 32 33 2000 Clear.requested
    = Done tt (run [CreateEncryptedTwin 31 32 33 2000] Clear.requested) /\
  requestToTwinId (run [CreateEncryptedTwin 31 32 33 2000] Clear.requested)
    = requestToTwinId Clear.requested.
Proof.
  destruct (twin_creation_frame 31 32 33 2000 Clear.full) as [Hfull _].
  destruct (twin_creation_frame 31 32 33 2000 Clear.requested) as [_ Hframe].
  assert (H1 : MAX_UINT256 <= twinCount Clear.full) by (vm_compute; discriminate).
  assert (H2 : createEncryptedTwin 31 32 33 2000 Clear.requested
               = Done tt (run [CreateEncryptedTwin 31 32 33 2000] Clear.requested))
    by (vm_compute; reflexivity).
  destruct (Hframe _ H2) as (_ & _ & _ & _ & _ & Htracker & _).
  split; [exact H1 | split; [exact (Hfull H1) | split; [exact H2 | exact Htracker]]].
Defined.
